(** * flamegraph-middleware: the profile session lifecycle

    A shallow embedding of [src/storage.js] (class [ProfileStorage]) and of
    [src/index.js] ([createFlamegraphMiddleware] and the handlers it closes
    over), together with the properties of the session lifecycle: routing,
    duration validation, polling, capacity eviction, expiration, timers and
    teardown.

    Conventions.
    - [Date.now()] is an explicit argument [now : Z] (milliseconds).
    - A JS [Map] iterates in insertion order; [profiles] is an association
      list kept in that order ([OrderedMap]).  [inProgress] is never
      iterated, it is a [gmap].
    - [setTimeout] returns a [Timeout] object; here a handle [nat], and the
      event loop's table of active timers is [timers].  The callback of every
      timer this program creates is [() => this.profiles.delete(id)], so a
      timer is its due time and that [id].
    - Durations are JS numbers that may be fractional (["1.5ms"]); they are
      rationals [Q], and what [parseInt] returns may also be an infinity
      ([Number]).  Times and configured limits are integers.
    - What the handlers take from outside (the [parse-duration] package,
      the platform's [parseInt] and its printing of a number, the page
      renderer) is a parameter [ext : Imports]; the value
      [crypto.randomBytes] yields for a new session is an argument [newId].
    - The profiler appears in the lifecycle only through how a background
      collection ends ([CollectResult]); its heap sampling is modelled
      apart, per process, since [pprof] is one module for all [Profiler]
      objects.
    - Logging is left out: it reads the state and changes nothing. *)

From Stdlib Require Import QArith ZArith Lia Ascii String List.
From stdpp Require Import gmap strings list fin_maps pretty.

Open Scope Z_scope.
Open Scope string_scope.
Open Scope list_scope.

(** ** JS [Map] with string keys, in insertion order *)

Module OrderedMap.
Section Defs.
Context {V : Type}.

(** [m.get(k)]; [None] is [undefined]. *)
Fixpoint get (k : string) (m : list (string * V)) : option V :=
  match m with
  | [] => None
  | (k', v) :: r => if decide (k' = k) then Some v else get k r
  end.

(** [m.set(k, v)]: an existing key keeps its position, a new key goes last. *)
Fixpoint set (k : string) (v : V) (m : list (string * V)) : list (string * V) :=
  match m with
  | [] => [(k, v)]
  | (k', v') :: r => if decide (k' = k) then (k, v) :: r else (k', v') :: set k v r
  end.

(** [m.delete(k)]. *)
Fixpoint delete (k : string) (m : list (string * V)) : list (string * V) :=
  match m with
  | [] => []
  | (k', v) :: r => if decide (k' = k) then delete k r else (k', v) :: delete k r
  end.

Definition keys (m : list (string * V)) : list string := m.*1.
Definition values (m : list (string * V)) : list V := m.*2.

(** [m.size] *)
Definition size (m : list (string * V)) : Z := Z.of_nat (length m).

(** [m.keys().next().value]; [None] is [undefined] (empty map). *)
Definition first_key (m : list (string * V)) : option string := head (keys m).

Lemma get_set_eq k v m : get k (set k v m) = Some v.
Proof.
  induction m as [|[k' v'] r IH]; simpl.
  - by rewrite decide_True.
  - destruct (decide (k' = k)); simpl.
    + by rewrite decide_True.
    + by rewrite decide_False.
Qed.

Lemma get_set_ne k k' v m : k <> k' -> get k' (set k v m) = get k' m.
Proof.
  intros Hne. induction m as [|[k0 v0] r IH]; simpl.
  - by rewrite decide_False.
  - destruct (decide (k0 = k)) as [->|]; simpl.
    + by rewrite !decide_False.
    + by rewrite IH.
Qed.

Lemma get_delete_eq k m : get k (delete k m) = None.
Proof.
  induction m as [|[k' v'] r IH]; simpl; [done|].
  destruct (decide (k' = k)); simpl; [done|]. by rewrite decide_False.
Qed.

Lemma get_delete_ne k k' m : k <> k' -> get k' (delete k m) = get k' m.
Proof.
  intros Hne. induction m as [|[k0 v0] r IH]; simpl; [done|].
  destruct (decide (k0 = k)) as [->|]; simpl.
  - by rewrite decide_False.
  - by rewrite IH.
Qed.

Lemma get_None k m : get k m = None <-> k ∉ keys m.
Proof.
  unfold keys. induction m as [|[k' v'] r IH]; simpl.
  - split; [intros _; apply not_elem_of_nil | done].
  - rewrite not_elem_of_cons. destruct (decide (k' = k)) as [->|].
    + split; [done | intros [? _]; done].
    + rewrite IH. split; [intros ?; split; [congruence | done] | intros [_ ?]; done].
Qed.

Lemma get_Some_elem k v m : get k m = Some v -> (k, v) ∈ m.
Proof.
  induction m as [|[k' v'] r IH]; simpl; [done|].
  destruct (decide (k' = k)) as [->|].
  - intros [= ->]. apply list_elem_of_here.
  - intros H. apply list_elem_of_further. by apply IH.
Qed.

Lemma elem_get k v m : NoDup (keys m) -> (k, v) ∈ m -> get k m = Some v.
Proof.
  unfold keys. induction m as [|[k' v'] r IH]; simpl.
  - intros _ H. by apply elem_of_nil in H.
  - rewrite NoDup_cons. intros [Hk Hr]. rewrite elem_of_cons. intros [[= -> ->]|Hin].
    + by rewrite decide_True.
    + rewrite decide_False; [by apply IH|].
      intros ->. apply Hk. change k with (fst (k, v)). by apply list_elem_of_fmap_2.
Qed.

Lemma set_fresh k v m : get k m = None -> set k v m = m ++ [(k, v)].
Proof.
  induction m as [|[k' v'] r IH]; simpl; [done|].
  destruct (decide (k' = k)); [done|]. intros H. by rewrite IH.
Qed.

Lemma keys_set_present k v m : k ∈ keys m -> keys (set k v m) = keys m.
Proof.
  unfold keys. induction m as [|[k' v'] r IH]; simpl.
  - intros H. by apply elem_of_nil in H.
  - rewrite elem_of_cons. destruct (decide (k' = k)) as [->|]; simpl; [done|].
    intros [->|Hin]; [done|]. f_equal. by apply IH.
Qed.

Lemma keys_set k v m :
  keys (set k v m) = if decide (k ∈ keys m) then keys m else keys m ++ [k].
Proof.
  destruct (decide (k ∈ keys m)) as [Hin|Hnin].
  - by apply keys_set_present.
  - apply get_None in Hnin. rewrite set_fresh by done. unfold keys. by rewrite fmap_app.
Qed.

Lemma length_set_le k v m : (length (set k v m) <= S (length m))%nat.
Proof.
  induction m as [|[k' v'] r IH]; simpl; [lia|].
  destruct (decide (k' = k)); simpl; lia.
Qed.

Lemma length_delete_le k m : (length (delete k m) <= length m)%nat.
Proof.
  induction m as [|[k' v'] r IH]; simpl; [lia|].
  destruct (decide (k' = k)); simpl; lia.
Qed.

Lemma delete_absent k m : k ∉ keys m -> delete k m = m.
Proof.
  unfold keys. induction m as [|[k' v'] r IH]; simpl; [done|].
  rewrite not_elem_of_cons. intros [Hne Hr].
  rewrite decide_False by congruence. by rewrite IH.
Qed.

(** With distinct keys, deleting the first key removes the first pair and
    nothing else. *)
Lemma delete_first k v r : NoDup (keys ((k, v) :: r)) -> delete k ((k, v) :: r) = r.
Proof.
  unfold keys. simpl. rewrite NoDup_cons. intros [Hk _].
  rewrite decide_True by done. by apply delete_absent.
Qed.

Lemma keys_delete_subseteq k m : keys (delete k m) ⊆ keys m.
Proof.
  unfold keys. induction m as [|[k' v'] r IH]; simpl; [done|].
  destruct (decide (k' = k)); simpl.
  - intros x Hx. apply list_elem_of_further. by apply IH.
  - intros x. rewrite !elem_of_cons. intros [->|Hx]; [by left | right; by apply IH].
Qed.

Lemma NoDup_delete k m : NoDup (keys m) -> NoDup (keys (delete k m)).
Proof.
  unfold keys. induction m as [|[k' v'] r IH]; simpl; [done|].
  rewrite NoDup_cons. intros [Hk Hr].
  destruct (decide (k' = k)); simpl; [by apply IH|].
  apply NoDup_cons. split; [|by apply IH].
  intros Hin. apply Hk. by apply (keys_delete_subseteq k r).
Qed.

Lemma NoDup_set k v m : NoDup (keys m) -> NoDup (keys (set k v m)).
Proof.
  intros Hnd. rewrite keys_set. case_decide; [done|].
  apply NoDup_app. split; [done|]. split.
  - intros x Hx. rewrite list_elem_of_singleton. by intros ->.
  - apply NoDup_singleton.
Qed.
End Defs.
End OrderedMap.

(** ** [src/storage.js] *)

Definition Buffer := string.

(** The payload [{ cpu, heap }] handed to [storeProfile]. *)
Record ProfileData := { cpu : Buffer; heap : Buffer }.

(** A value of [this.profiles]: [{ data, expiresAt, timeout }]. *)
Record Entry := { data : ProfileData; expiresAt : Z; timeout : nat }.

(** A value of [this.inProgress]: [{ ...metadata, startTime }] where the
    only caller passes [metadata = { duration }]. *)
Record Metadata := { duration : Q; startTime : Z }.

(** An active timer: the earliest time its callback runs, and the [id] its
    callback [() => this.profiles.delete(id)] closes over. *)
Record Timer := { fireAt : Z; target : string }.

Record ProfileStorage := mkStorage {
  maxProfiles : Z;
  profileTTL : Z;
  profiles : list (string * Entry);
  inProgress : gmap string Metadata;
  (* the event loop's side: timers set by this object and not yet run or cleared *)
  timers : gmap nat Timer;
  nextTimeout : nat
}.

(** [options.maxProfiles], [options.profileTTL]; [None] is [undefined]. *)
Record StorageOptions := { opt_maxProfiles : option Z; opt_profileTTL : option Z }.

(** [x || d] on a number that may be [undefined]: [0] is falsy. *)
Definition or_default (x : option Z) (d : Z) : Z :=
  match x with
  | None => d
  | Some n => if decide (n = 0) then d else n
  end.

(** [constructor (options = {})] *)
Definition ProfileStorage_new (options : StorageOptions) : ProfileStorage :=
  {| maxProfiles := or_default (opt_maxProfiles options) 10;
     profileTTL := or_default (opt_profileTTL options) (5 * 60 * 1000);
     profiles := [];
     inProgress := ∅;
     timers := ∅;
     nextTimeout := 0 |}.

Definition with_profiles (st : ProfileStorage) (p : list (string * Entry)) : ProfileStorage :=
  mkStorage (maxProfiles st) (profileTTL st) p (inProgress st) (timers st) (nextTimeout st).

Definition with_inProgress (st : ProfileStorage) (ip : gmap string Metadata) : ProfileStorage :=
  mkStorage (maxProfiles st) (profileTTL st) (profiles st) ip (timers st) (nextTimeout st).

Definition with_timers (st : ProfileStorage) (t : gmap nat Timer) : ProfileStorage :=
  mkStorage (maxProfiles st) (profileTTL st) (profiles st) (inProgress st) t (nextTimeout st).

(** The delay Node gives a timer: a delay below 1 or above [2^31 - 1]
    milliseconds is set to 1. *)
Definition timer_delay (delay : Z) : Z :=
  if decide (1 <= delay <= 2147483647) then delay else 1.

(** [setTimeout(() => this.profiles.delete(id), delay)] at time [now]:
    a fresh handle, due at [now + timer_delay delay]. *)
Definition setTimeout (id : string) (delay : Z) (now : Z) (st : ProfileStorage)
  : nat * ProfileStorage :=
  (nextTimeout st,
   mkStorage (maxProfiles st) (profileTTL st) (profiles st) (inProgress st)
     (<[nextTimeout st := {| fireAt := now + timer_delay delay; target := id |}]> (timers st))
     (S (nextTimeout st))).

(** [clearTimeout(h)] *)
Definition clearTimeout (h : nat) (st : ProfileStorage) : ProfileStorage :=
  with_timers st (delete h (timers st)).

(** [markInProgress (id, metadata)] *)
Definition markInProgress (id : string) (metadata_duration : Q) (now : Z)
    (st : ProfileStorage) : ProfileStorage :=
  with_inProgress st
    (<[id := {| duration := metadata_duration; startTime := now |}]> (inProgress st)).

(** [isInProgress (id)]: [this.inProgress.has(id)] *)
Definition isInProgress (id : string) (st : ProfileStorage) : bool :=
  bool_decide (is_Some (inProgress st !! id)).

(** [getInProgressMetadata (id)]: [this.inProgress.get(id) || null] *)
Definition getInProgressMetadata (id : string) (st : ProfileStorage) : option Metadata :=
  inProgress st !! id.

(** The FIFO eviction step of [storeProfile]:
    [if (this.profiles.size >= this.maxProfiles) { oldestId = keys().next().value;
    this.profiles.delete(oldestId) }].  On an empty map [oldestId] is
    [undefined] and the delete does nothing. *)
Definition evictOldest (st : ProfileStorage) : ProfileStorage :=
  if decide (maxProfiles st <= OrderedMap.size (profiles st)) then
    match OrderedMap.first_key (profiles st) with
    | Some oldestId => with_profiles st (OrderedMap.delete oldestId (profiles st))
    | None => st
    end
  else st.

(** [storeProfile (id, data)] *)
Definition storeProfile (id : string) (d : ProfileData) (now : Z)
    (st : ProfileStorage) : ProfileStorage :=
  let st1 := with_inProgress st (delete id (inProgress st)) in
  let st2 := evictOldest st1 in
  let '(h, st3) := setTimeout id (profileTTL st2) now st2 in
  with_profiles st3
    (OrderedMap.set id {| data := d; expiresAt := now + profileTTL st3; timeout := h |}
       (profiles st3)).

(** [getProfile (id)]; [None] is [null].  An entry read after its
    [expiresAt] is deleted from the map (its timer is left alone). *)
Definition getProfile (id : string) (now : Z) (st : ProfileStorage)
  : option ProfileData * ProfileStorage :=
  match OrderedMap.get id (profiles st) with
  | None => (None, st)
  | Some entry =>
      if decide (expiresAt entry < now)
      then (None, with_profiles st (OrderedMap.delete id (profiles st)))
      else (Some (data entry), st)
  end.

(** [deleteProfile (id)] *)
Definition deleteProfile (id : string) (st : ProfileStorage) : ProfileStorage :=
  let st1 := match OrderedMap.get id (profiles st) with
             | Some entry => clearTimeout (timeout entry) st
             | None => st
             end in
  with_profiles st1 (OrderedMap.delete id (profiles st1)).

(** [cleanup ()] *)
Definition cleanup (st : ProfileStorage) : ProfileStorage :=
  let st1 := fold_left (fun s entry => clearTimeout (timeout entry) s)
               (OrderedMap.values (profiles st)) st in
  with_inProgress (with_profiles st1 []) ∅.

(** The event loop runs timer [h]: possible once it is due and while it is
    active; the timer is consumed and its callback deletes [target] from
    [profiles].  Anything else leaves the store as it is. *)
Definition fireTimer (h : nat) (now : Z) (st : ProfileStorage) : ProfileStorage :=
  match timers st !! h with
  | Some t =>
      if decide (fireAt t <= now)
      then with_profiles (with_timers st (delete h (timers st)))
             (OrderedMap.delete (target t) (profiles st))
      else st
  | None => st
  end.

(** What can happen to a store, one call at a time. *)
Inductive StoreOp :=
  | OpMarkInProgress (id : string) (metadata_duration : Q)
  | OpStoreProfile (id : string) (d : ProfileData)
  | OpGetProfile (id : string)
  | OpDeleteProfile (id : string)
  | OpCleanup
  | OpTimer (h : nat).

Definition apply_op (now : Z) (op : StoreOp) (st : ProfileStorage) : ProfileStorage :=
  match op with
  | OpMarkInProgress id dur => markInProgress id dur now st
  | OpStoreProfile id d => storeProfile id d now st
  | OpGetProfile id => snd (getProfile id now st)
  | OpDeleteProfile id => deleteProfile id st
  | OpCleanup => cleanup st
  | OpTimer h => fireTimer h now st
  end.

(** A history: each call with the time at which it runs. *)
Fixpoint run_ops (ops : list (Z * StoreOp)) (st : ProfileStorage) : ProfileStorage :=
  match ops with
  | [] => st
  | (now, op) :: rest => run_ops rest (apply_op now op st)
  end.

(** ** Predicates on stores *)

(** Distinct keys, and timer handles below the counter. *)
Definition wf (st : ProfileStorage) : Prop :=
  NoDup (OrderedMap.keys (profiles st)) /\
  forall h t, timers st !! h = Some t -> (h < nextTimeout st)%nat.

(** Every active timer is the [timeout] of the record stored under its
    target identifier. *)
Definition no_leaked_timers (st : ProfileStorage) : Prop :=
  forall h t, timers st !! h = Some t ->
    exists e, OrderedMap.get (target t) (profiles st) = Some e /\ timeout e = h.

(** ** [src/index.js] *)

(** *** Strings as the router reads them *)

(** [s.slice(n)] for [0 <= n]: the suffix from index [n]. *)
Fixpoint slice (n : nat) (s : string) : string :=
  match n, s with
  | O, _ => s
  | S n', String _ r => slice n' r
  | S _, EmptyString => EmptyString
  end.

Definition is_digit (c : ascii) : bool :=
  ((48 <=? nat_of_ascii c) && (nat_of_ascii c <=? 57))%nat.

(** The character class [[a-f0-9]]. *)
Definition is_lower_hex (c : ascii) : bool :=
  is_digit c || ((97 <=? nat_of_ascii c) && (nat_of_ascii c <=? 102))%nat.

Fixpoint all_chars (p : ascii -> bool) (s : string) : bool :=
  match s with
  | EmptyString => true
  | String c r => p c && all_chars p r
  end.

(** [subPath.match(/^\/result\/([a-f0-9]+)$/)]: the captured group, or
    [None] for [null]. *)
Definition resultMatch (subPath : string) : option string :=
  if String.prefix "/result/" subPath then
    let rest := slice 8 subPath in
    if negb (String.eqb rest EmptyString) && all_chars is_lower_hex rest then Some rest else None
  else None.

(** *** Requests, responses, configuration *)

(** [parseUrl(req.url, true)]: the [pathname] and [query.duration]
    ([None] when the parameter is missing). *)
Record Request := { pathname : string; query_duration : option string }.

(** The three page generators of [html-generator.js], by their arguments. *)
Inductive Page :=
  | ProgressPage (profileId : string) (remaining : Q) (base : string)
  | ResultsPage (html : string)
  | ErrorPage (message : string) (code : Z).

(** [res.writeHead(statusCode, ...); res.end(html)] *)
Record Response := { statusCode : Z; body : Page }.

(** What one call of the middleware does with the request. *)
Inductive Outcome :=
  | CallNext                 (* [return next()], nothing written to [res] *)
  | Respond (r : Response).

(** How a background collection ends. *)
Inductive CollectResult :=
  | CollectionThrows         (* [profiler.collectProfiles] rejects: CPU or heap *)
  | EncodingThrows           (* [profiler.encodeProfile] rejects *)
  | Encoded (cpuBuffer heapBuffer : Buffer).

(** The options object of [createFlamegraphMiddleware]; [None] is a
    missing field. *)
Record MiddlewareOptions := {
  o_basePath : option string;
  o_maxDuration : option Z;
  o_defaultDuration : option Z;
  o_maxProfiles : option Z;
  o_profileTTL : option Z;
  o_primary : option string;
  o_secondary : option string
}.

(** What the closure holds after the destructuring with defaults. *)
Record Config := {
  basePath : string;
  maxDuration : Z;
  defaultDuration : Z;
  primaryColor : string;
  secondaryColor : string
}.

Record Middleware := mkMiddleware {
  config : Config;
  storage : ProfileStorage;
  (* calls of collectProfilesInBackground that have not finished: profileId, duration *)
  collecting : list (string * Q);
  (* every identifier generateId has returned so far (bookkeeping only) *)
  issued : list string
}.

(** [colors.primary || '#ff4444']: the empty string is falsy. *)
Definition color_or (c : option string) (d : string) : string :=
  match c with
  | Some s => if String.eqb s EmptyString then d else s
  | None => d
  end.

(** [createFlamegraphMiddleware (options = {})]: a default applies to a
    field that is [undefined]. *)
Definition createFlamegraphMiddleware (options : MiddlewareOptions) : Middleware :=
  {| config :=
       {| basePath := default "/flamegraph" (o_basePath options);
          maxDuration := default 60000 (o_maxDuration options);
          defaultDuration := default 10000 (o_defaultDuration options);
          primaryColor := color_or (o_primary options) "#ff4444";
          secondaryColor := color_or (o_secondary options) "#ffcc66" |};
     storage :=
       ProfileStorage_new
         {| opt_maxProfiles := Some (default 10 (o_maxProfiles options));
            opt_profileTTL := Some (default (5 * 60 * 1000) (o_profileTTL options)) |};
     collecting := [];
     issued := [] |}.

Definition with_storage (mw : Middleware) (st : ProfileStorage) : Middleware :=
  mkMiddleware (config mw) st (collecting mw) (issued mw).

(** [sendError (res, message, statusCode)] *)
Definition sendError (message : string) (code : Z) : Response :=
  {| statusCode := code; body := ErrorPage message code |}.

Definition dquote : string := String (ascii_of_nat 34) EmptyString.
Definition msg_invalid_duration : string :=
  ("Invalid duration parameter. Use a number in milliseconds or human-readable format like "
   ++ dquote ++ "30s" ++ dquote ++ ", " ++ dquote ++ "5m" ++ dquote ++ ".")%string.
Definition msg_not_positive : string := "Duration must be greater than 0".
Definition msg_processing : string :=
  "Profile is being processed. Please refresh in a moment.".
Definition msg_not_found_or_expired : string := "Profile not found or expired".
Definition msg_results_failed : string := "Failed to generate results page".
Definition msg_not_found : string := "Not found".

(** Remove the first pending collection of [profileId]. *)
Fixpoint finish (profileId : string) (l : list (string * Q)) : list (string * Q) :=
  match l with
  | [] => []
  | (k, d) :: r => if decide (k = profileId) then r else (k, d) :: finish profileId r
  end.

(** A JS number other than [NaN]: a double, which is a rational, or one
    of the two infinities. *)
Inductive Number :=
  | Num (x : Q)
  | PosInfinity
  | NegInfinity.

(** What [index.js] takes from outside the lifecycle code: a package, two
    built-ins of the platform and a module of the repository. *)
Record Imports := {
  (* the [parse-duration] package: [None] is [null] *)
  parseDuration : string -> option Q;
  (* the platform's [parseInt (s, 10)]: [None] is [NaN]; the number is an
     infinity for a run of digits beyond the range of a double *)
  parseInt : string -> option Number;
  (* the platform's conversion of a number to a string, as a template
     literal applies it *)
  Number_toString : Z -> string;
  (* [generateResultsPage (cpu, heap, { primaryColor, secondaryColor })] of
     [html-generator.js]; [None] when the promise rejects *)
  generateResultsPage : Buffer -> Buffer -> string -> string -> option string
}.

(** [`Duration exceeds maximum allowed (${maxDuration}ms)`] *)
Definition msg_exceeds (ext : Imports) (maxDuration : Z) : string :=
  ("Duration exceeds maximum allowed (" ++ Number_toString ext maxDuration ++ "ms)")%string.

(** The first part of [handleStartProfiling]: the duration the request
    asks for, or [None] at the early return for an invalid parameter.
    [if (query.duration)] is false for a missing and for an empty value. *)
Definition requestedDuration (ext : Imports) (cfg : Config) (q : option string)
  : option Number :=
  match q with
  | Some s =>
      if String.eqb s EmptyString then Some (Num (inject_Z (defaultDuration cfg)))
      else match parseDuration ext s with
           | Some d => Some (Num d)
           | None => parseInt ext s
           end
  | None => Some (Num (inject_Z (defaultDuration cfg)))
  end.

(** [handleStartProfiling (req, res, query)].  [newId] is what
    [storage.generateId()] returns when the call is reached.  Nothing in
    the [try] block throws, so the [catch] branch does not appear. *)
Definition handleStartProfiling (ext : Imports) (q : option string) (newId : string) (now : Z)
    (mw : Middleware) : Response * Middleware :=
  let cfg := config mw in
  match requestedDuration ext cfg q with
  | None => (sendError msg_invalid_duration 400, mw)
  | Some NegInfinity =>
      (* [-Infinity <= 0] *)
      (sendError msg_not_positive 400, mw)
  | Some PosInfinity =>
      (* not [Infinity <= 0], and [Infinity > maxDuration] *)
      (sendError (msg_exceeds ext (maxDuration cfg)) 400, mw)
  | Some (Num dur) =>
      if Qle_bool dur 0 then (sendError msg_not_positive 400, mw)
      else if negb (Qle_bool dur (inject_Z (maxDuration cfg)))
      then (sendError (msg_exceeds ext (maxDuration cfg)) 400, mw)
      else
        ({| statusCode := 200; body := ProgressPage newId dur (basePath cfg) |},
         mkMiddleware cfg (markInProgress newId dur now (storage mw))
           ((newId, dur) :: collecting mw) (newId :: issued mw))
  end.

(** [handleResultPage (req, res, profileId)] *)
Definition handleResultPage (ext : Imports) (profileId : string) (now : Z) (mw : Middleware)
  : Response * Middleware :=
  let cfg := config mw in
  if isInProgress profileId (storage mw) then
    match getInProgressMetadata profileId (storage mw) with
    | Some metadata =>
        let elapsed := now - startTime metadata in
        let left := (duration metadata - inject_Z elapsed)%Q in
        (* remaining = Math.max(0, left); remaining > 0 *)
        let remaining := if Qle_bool left 0 then 0%Q else left in
        if negb (Qle_bool remaining 0)
        then ({| statusCode := 200; body := ProgressPage profileId remaining (basePath cfg) |}, mw)
        else (sendError msg_processing 202, mw)
    | None => (sendError msg_results_failed 500, mw)
    end
  else
    let '(profileData, st') := getProfile profileId now (storage mw) in
    match profileData with
    | None => (sendError msg_not_found_or_expired 404, with_storage mw st')
    | Some pd =>
        match generateResultsPage ext (cpu pd) (heap pd) (primaryColor cfg) (secondaryColor cfg) with
        | Some html => ({| statusCode := 200; body := ResultsPage html |}, with_storage mw st')
        | None => (sendError msg_results_failed 500, with_storage mw st')
        end
    end.

(** [collectProfilesInBackground (profileId, duration)], from the moment
    the awaited profiler calls settle. *)
Definition collectProfilesInBackground (profileId : string) (result : CollectResult)
    (now : Z) (mw : Middleware) : Middleware :=
  match result with
  | Encoded cpuBuffer heapBuffer =>
      mkMiddleware (config mw)
        (storeProfile profileId {| cpu := cpuBuffer; heap := heapBuffer |} now (storage mw))
        (finish profileId (collecting mw)) (issued mw)
  | CollectionThrows | EncodingThrows =>
      (* console.error; "Profile will remain in progress" *)
      mkMiddleware (config mw) (storage mw) (finish profileId (collecting mw)) (issued mw)
  end.

(** [flamegraphMiddleware (req, res, next)] *)
Definition flamegraphMiddleware (ext : Imports) (req : Request) (newId : string) (now : Z)
    (mw : Middleware) : Outcome * Middleware :=
  let base := basePath (config mw) in
  if negb (String.prefix base (pathname req)) then (CallNext, mw)
  else
    let sliced := slice (String.length base) (pathname req) in
    let subPath := if String.eqb sliced EmptyString then "/" else sliced in
    if String.eqb subPath "/" || String.eqb subPath EmptyString then
      let '(r, mw') := handleStartProfiling ext (query_duration req) newId now mw in
      (Respond r, mw')
    else
      match resultMatch subPath with
      | Some profileId =>
          let '(r, mw') := handleResultPage ext profileId now mw in (Respond r, mw')
      | None => (Respond (sendError msg_not_found 404), mw)
      end.

(** What the event loop delivers to the middleware. *)
Inductive Event :=
  | EvRequest (req : Request) (newId : string)
  | EvSettle (profileId : string) (result : CollectResult)
  | EvTimer (h : nat).

(** A background collection can settle only while it is pending. *)
Definition step (ext : Imports) (now : Z) (ev : Event) (mw : Middleware) : Middleware :=
  match ev with
  | EvRequest req newId => snd (flamegraphMiddleware ext req newId now mw)
  | EvSettle profileId result =>
      if decide (profileId ∈ (collecting mw).*1)
      then collectProfilesInBackground profileId result now mw
      else mw
  | EvTimer h => with_storage mw (fireTimer h now (storage mw))
  end.

Fixpoint run (ext : Imports) (evs : list (Z * Event)) (mw : Middleware) : Middleware :=
  match evs with
  | [] => mw
  | (now, ev) :: rest => run ext rest (step ext now ev mw)
  end.

(** [crypto.randomBytes(16)] does not repeat itself: when a step consumes
    [newId] (it issues an identifier), [newId] is none of the identifiers
    issued before. *)
Definition fresh_step (ext : Imports) (now : Z) (ev : Event) (mw : Middleware) : Prop :=
  match ev with
  | EvRequest req newId => issued (step ext now ev mw) = issued mw \/ newId ∉ issued mw
  | _ => True
  end.

Fixpoint fresh_ids (ext : Imports) (evs : list (Z * Event)) (mw : Middleware) : Prop :=
  match evs with
  | [] => True
  | (now, ev) :: rest => fresh_step ext now ev mw /\ fresh_ids ext rest (step ext now ev mw)
  end.

(** The two routes, in the words of the interface description. *)
Definition start_route (base path : string) : Prop :=
  path = base \/ path = (base ++ "/")%string.

Definition result_route (base path : string) : Prop :=
  exists hex, hex <> EmptyString /\ all_chars is_lower_hex hex = true /\
              path = (base ++ "/result/" ++ hex)%string.

(** An accepted start: answered 200 with the progress page for [dur], the
    session recorded as in progress from [now], its collection launched. *)
Definition accepted (ext : Imports) (q : option string) (newId : string) (now : Z) (mw : Middleware)
    (dur : Q) : Prop :=
  handleStartProfiling ext q newId now mw =
  ({| statusCode := 200; body := ProgressPage newId dur (basePath (config mw)) |},
   mkMiddleware (config mw) (markInProgress newId dur now (storage mw))
     ((newId, dur) :: collecting mw) (newId :: issued mw)).

(** ** The middleware as a transition system *)

(** Identifiers whose background collection has not finished. *)
Definition pending (mw : Middleware) : list string := (collecting mw).*1.

(** The five things one event can do to the middleware. *)
Inductive Effect (now : Z) (mw : Middleware) : Event -> Middleware -> Prop :=
  | EffNone ev : Effect now mw ev mw
  | EffAccept req newId dur :
      (0 < dur)%Q -> (dur <= inject_Z (maxDuration (config mw)))%Q ->
      Effect now mw (EvRequest req newId)
        (mkMiddleware (config mw) (markInProgress newId dur now (storage mw))
           ((newId, dur) :: collecting mw) (newId :: issued mw))
  | EffShrink ev st' :
      inProgress st' = inProgress (storage mw) ->
      (forall id, OrderedMap.get id (profiles (storage mw)) = None ->
                  OrderedMap.get id (profiles st') = None) ->
      Effect now mw ev (with_storage mw st')
  | EffStored profileId cpuBuffer heapBuffer :
      profileId ∈ pending mw ->
      Effect now mw (EvSettle profileId (Encoded cpuBuffer heapBuffer))
        (mkMiddleware (config mw)
           (storeProfile profileId {| cpu := cpuBuffer; heap := heapBuffer |} now (storage mw))
           (finish profileId (collecting mw)) (issued mw))
  | EffFailed profileId result :
      profileId ∈ pending mw ->
      (forall c h, result <> Encoded c h) ->
      Effect now mw (EvSettle profileId result)
        (mkMiddleware (config mw) (storage mw) (finish profileId (collecting mw)) (issued mw)).

(** What holds of every state the middleware reaches while identifiers
    are fresh. *)
Record Inv (mw : Middleware) : Prop := {
  inv_nodup : NoDup (pending mw);
  inv_pending : forall id, id ∈ pending mw ->
    id ∈ issued mw /\ is_Some (inProgress (storage mw) !! id);
  inv_inProgress : forall id, is_Some (inProgress (storage mw) !! id) -> id ∈ issued mw;
  inv_profiles : forall id, id ∈ OrderedMap.keys (profiles (storage mw)) -> id ∈ issued mw;
  inv_disjoint : forall id, is_Some (inProgress (storage mw) !! id) ->
    OrderedMap.get id (profiles (storage mw)) = None
}.


(** The session [id] is recorded as in progress with metadata [m], has no
    completed record, and no collection is under way for it. *)
Definition stuck (id : string) (m : Metadata) (mw : Middleware) : Prop :=
  (id ∈ issued mw) /\ (id ∉ pending mw) /\
  inProgress (storage mw) !! id = Some m /\
  OrderedMap.get id (profiles (storage mw)) = None.

(** The session [id] was issued once and is over: it is neither in
    progress nor completed, and no collection is under way for it. *)
Definition gone (id : string) (mw : Middleware) : Prop :=
  (id ∈ issued mw) /\ (id ∉ pending mw) /\
  inProgress (storage mw) !! id = None /\
  OrderedMap.get id (profiles (storage mw)) = None.

(** ** Identifiers and links *)

(** One digit of [Buffer.toString('hex')]: the characters [0-9a-f] by
    character code. *)
Definition hex_digit (n : nat) : ascii :=
  ascii_of_nat (if (n <? 10)%nat then 48 + n else 87 + n).

(** [buf.toString('hex')]: two digits per byte, high nibble first. *)
Fixpoint toHex (bytes : list ascii) : string :=
  match bytes with
  | [] => EmptyString
  | b :: r =>
      String (hex_digit (nat_of_ascii b / 16))
        (String (hex_digit (nat_of_ascii b mod 16)) (toHex r))
  end.

(** [generateId ()]: [crypto.randomBytes(16).toString('hex')], the random
    bytes being the argument. *)
Definition generateId (randomBytes : list ascii) : string := toHex randomBytes.

(** The link of [generateProgressPage (profileId, duration, basePath)]:
    [`${basePath}/result/${profileId}`]. *)
Definition resultUrl (base profileId : string) : string :=
  (base ++ "/result/" ++ profileId)%string.

(** ** [src/html-generator.js]: escaping *)

Definition char_amp : ascii := ascii_of_nat 38.
Definition char_lt : ascii := ascii_of_nat 60.
Definition char_gt : ascii := ascii_of_nat 62.
Definition char_dquote : ascii := ascii_of_nat 34.
Definition char_squote : ascii := ascii_of_nat 39.

(** The characters the regular expression of [escapeHtml] matches:
    ampersand, less-than, greater-than, double quote, single quote. *)
Definition is_special (c : ascii) : bool :=
  Ascii.eqb c char_amp || Ascii.eqb c char_lt || Ascii.eqb c char_gt
  || Ascii.eqb c char_dquote || Ascii.eqb c char_squote.

(** [map[m]] for a character of the class, the character itself otherwise. *)
Definition escape_char (c : ascii) : string :=
  if Ascii.eqb c char_amp then "&amp;"
  else if Ascii.eqb c char_lt then "&lt;"
  else if Ascii.eqb c char_gt then "&gt;"
  else if Ascii.eqb c char_dquote then "&quot;"
  else if Ascii.eqb c char_squote then "&#039;"
  else String c EmptyString.

(** [escapeHtml (text)]: every match of the class is replaced by [map[m]]. *)
Fixpoint escapeHtml (text : string) : string :=
  match text with
  | EmptyString => EmptyString
  | String c r => (escape_char c ++ escapeHtml r)%string
  end.

(** The characters that open or close markup or an attribute value. *)
Definition is_markup (c : ascii) : bool :=
  Ascii.eqb c char_lt || Ascii.eqb c char_gt
  || Ascii.eqb c char_dquote || Ascii.eqb c char_squote.

(** ** [src/profiler.js]: heap sampling on and off *)






(** The methods take the object and the calls made so far, and give both
    back. *)














(** ** Sample inputs *)

Definition sampleData (tag : string) : ProfileData :=
  {| cpu := ("cpu" ++ tag)%string; heap := ("heap" ++ tag)%string |}.

Definition three_stores : list (Z * StoreOp) :=
  [(0, OpStoreProfile "a0" (sampleData "0"));
   (1, OpStoreProfile "a1" (sampleData "1"));
   (2, OpStoreProfile "a2" (sampleData "2"))].

Definition capacity_one : ProfileStorage :=
  ProfileStorage_new {| opt_maxProfiles := Some 1; opt_profileTTL := Some 1000 |}.

Definition evicted_once : ProfileStorage :=
  storeProfile "b1" (sampleData "1") 1 (storeProfile "a0" (sampleData "0") 0 capacity_one).

Definition ttl_1000 : ProfileStorage :=
  ProfileStorage_new {| opt_maxProfiles := Some 3; opt_profileTTL := Some 1000 |}.

(** A stand-in for the [parse-duration] package on the inputs used below:
    decimal digits followed by nothing (milliseconds) or by one of the
    units [ms], [s], [m], [h]; anything else is [null]. *)
Fixpoint leading_number (acc : Z) (seen : bool) (s : string) : option (Z * string) :=
  match s with
  | String c r =>
      if is_digit c then leading_number (acc * 10 + (Z.of_nat (nat_of_ascii c) - 48)) true r
      else if seen then Some (acc, s) else None
  | EmptyString => if seen then Some (acc, s) else None
  end.

Definition unit_ms (u : string) : option Z :=
  if String.eqb u EmptyString then Some 1
  else if String.eqb u "ms" then Some 1
  else if String.eqb u "s" then Some 1000
  else if String.eqb u "m" then Some (60 * 1000)
  else if String.eqb u "h" then Some (60 * 60 * 1000)
  else None.

Definition parseDuration_units (s : string) : option Q :=
  match leading_number 0 false s with
  | Some (n, u) => option_map (fun f => inject_Z (n * f)) (unit_ms u)
  | None => None
  end.

(** A stand-in for the platform's [parseInt (s, 10)], for the examples:
    leading blanks, an optional sign, then the longest run of decimal
    digits; [None] where there is no digit, an infinity from [2 ^ 1024]
    on. *)
Definition is_blank (c : ascii) : bool :=
  let n := nat_of_ascii c in
  ((n =? 32) || (n =? 9) || (n =? 10) || (n =? 11) || (n =? 12) || (n =? 13))%nat.

Fixpoint skip_blanks (s : string) : string :=
  match s with
  | String c r => if is_blank c then skip_blanks r else s
  | EmptyString => s
  end.

Fixpoint read_digits (acc : Z) (seen : bool) (s : string) : option Z :=
  match s with
  | String c r =>
      if is_digit c then read_digits (acc * 10 + (Z.of_nat (nat_of_ascii c) - 48)) true r
      else if seen then Some acc else None
  | EmptyString => if seen then Some acc else None
  end.

Definition to_Number (n : Z) : Number :=
  if (2 ^ 1024 <=? n)%Z then PosInfinity
  else if (n <=? - 2 ^ 1024)%Z then NegInfinity
  else Num (inject_Z n).

Definition parseInt_digits (s : string) : option Number :=
  option_map to_Number
    match skip_blanks s with
    | String "-" r => option_map Z.opp (read_digits 0 false r)
    | String "+" r => read_digits 0 false r
    | s' => read_digits 0 false s'
    end.


(** A renderer that succeeds, for the examples. *)
Definition render_concat (cpuBuffer heapBuffer primary secondary : string) : option string :=
  Some (cpuBuffer ++ heapBuffer)%string.

Definition example_imports : Imports :=
  {| parseDuration := parseDuration_units; parseInt := parseInt_digits;
     Number_toString := pretty; generateResultsPage := render_concat |}.


Definition no_options : MiddlewareOptions :=
  {| o_basePath := None; o_maxDuration := None; o_defaultDuration := None;
     o_maxProfiles := None; o_profileTTL := None; o_primary := None; o_secondary := None |}.

(** The configuration of the repository's middleware test. *)
Definition test_options : MiddlewareOptions :=
  {| o_basePath := Some "/flamegraph"; o_maxDuration := Some 500;
     o_defaultDuration := Some 100;
     o_maxProfiles := None; o_profileTTL := None; o_primary := None; o_secondary := None |}.


Definition get_ (path : string) (dur : option string) : Request :=
  {| pathname := path; query_duration := dur |}.

Definition started_2000 : Middleware :=
  snd (handleStartProfiling example_imports (Some "2000") "0a" 0
         (createFlamegraphMiddleware no_options)).

Definition completed_2100 : Middleware :=
  collectProfilesInBackground "0a" (Encoded "cpu" "heap") 2100 started_2000.

Definition start_then_fail : list (Z * Event) :=
  [(0, EvRequest (get_ "/flamegraph" (Some "100")) "0a")].

Definition after_failure : list (Z * Event) :=
  [(200, EvRequest (get_ "/flamegraph/result/0a" None) "0b");
   (300, EvRequest (get_ "/flamegraph" None) "0c");
   (400, EvTimer 0);
   (11000, EvSettle "0c" (Encoded "cpu" "heap"))].

Definition start_and_complete : list (Z * Event) :=
  [(0, EvRequest (get_ "/flamegraph" (Some "100")) "0a");
   (50, EvRequest (get_ "/flamegraph/result/0a" None) "0b");
   (150, EvSettle "0a" (Encoded "cpu" "heap"));
   (200, EvRequest (get_ "/flamegraph/result/0a" None) "0b")].

(** ** Histories that drop no record behind its timer's back *)

(** A call that removes a record only together with its timer: marking,
    deleting, teardown, a timer running, a read of a record that is not
    past its expiration, and a [storeProfile] of a new identifier below
    capacity. *)
Definition gentle (now : Z) (op : StoreOp) (st : ProfileStorage) : Prop :=
  match op with
  | OpStoreProfile id _ =>
      OrderedMap.size (profiles st) < maxProfiles st /\
      OrderedMap.get id (profiles st) = None
  | OpGetProfile id =>
      forall e, OrderedMap.get id (profiles st) = Some e -> now <= expiresAt e
  | _ => True
  end.

Fixpoint gentle_history (ops : list (Z * StoreOp)) (st : ProfileStorage) : Prop :=
  match ops with
  | [] => True
  | (now, op) :: rest => gentle now op st /\ gentle_history rest (apply_op now op st)
  end.

Definition two_stored : ProfileStorage :=
  storeProfile "b1" (sampleData "1") 1 (storeProfile "a0" (sampleData "0") 0 ttl_1000).

Definition full_of_two : ProfileStorage :=
  storeProfile "b1" (sampleData "1") 1
    (storeProfile "a0" (sampleData "0") 0
       (ProfileStorage_new {| opt_maxProfiles := Some 2; opt_profileTTL := Some 1000 |})).

Definition sixteen_bytes : list ascii :=
  map ascii_of_nat [0; 1; 2; 3; 4; 5; 6; 7; 8; 9; 10; 171; 205; 239; 254; 255]%nat.

Definition sixteen_zero_bytes : list ascii := repeat (ascii_of_nat 0) 16.

Definition never_renders : Imports :=
  {| parseDuration := parseDuration_units; parseInt := parseInt_digits;
     Number_toString := pretty; generateResultsPage := fun _ _ _ _ => None |}.


Definition session_expires : list (Z * Event) :=
  [(0, EvRequest (get_ "/flamegraph" (Some "100")) "0a");
   (150, EvSettle "0a" (Encoded "cpu" "heap"));
   (300150, EvTimer 0)].

Definition later_traffic : list (Z * Event) :=
  [(300200, EvRequest (get_ "/flamegraph" None) "0b");
   (310300, EvSettle "0b" (Encoded "cpu" "heap"));
   (310400, EvRequest (get_ "/flamegraph/result/0b" None) "0c")].

Definition gentle_ops : list (Z * StoreOp) :=
  [(0, OpStoreProfile "a0" (sampleData "0"));
   (1, OpMarkInProgress "b1" (inject_Z 100));
   (2, OpStoreProfile "b1" (sampleData "1"));
   (3, OpGetProfile "a0");
   (4, OpDeleteProfile "a0");
   (1002, OpTimer 1)].

(** * Properties *)

Example store_then_get :
  fst (getProfile "a1" 5
         (storeProfile "a1" (sampleData "0") 0
            (ProfileStorage_new {| opt_maxProfiles := Some 3; opt_profileTTL := Some 1000 |})))
  = Some (sampleData "0").
Proof. reflexivity. Qed.

(** ** Basic facts about the store operations *)

Lemma getProfile_fst id now st :
  fst (getProfile id now st) =
  match OrderedMap.get id (profiles st) with
  | Some entry => if decide (expiresAt entry < now) then None else Some (data entry)
  | None => None
  end.
Proof.
  unfold getProfile. destruct (OrderedMap.get id (profiles st)) as [entry|]; [|done].
  by destruct (decide (expiresAt entry < now)).
Qed.

Lemma getProfile_profiles id now st :
  profiles (snd (getProfile id now st)) = profiles st \/
  profiles (snd (getProfile id now st)) = OrderedMap.delete id (profiles st).
Proof.
  unfold getProfile. destruct (OrderedMap.get id (profiles st)) as [entry|]; [|by left].
  destruct (decide (expiresAt entry < now)); [by right | by left].
Qed.

Lemma getProfile_rest id now st :
  let st' := snd (getProfile id now st) in
  maxProfiles st' = maxProfiles st /\ profileTTL st' = profileTTL st /\
  inProgress st' = inProgress st /\ timers st' = timers st /\
  nextTimeout st' = nextTimeout st.
Proof.
  unfold getProfile. destruct (OrderedMap.get id (profiles st)) as [entry|]; [|done].
  by destruct (decide (expiresAt entry < now)).
Qed.

Lemma evictOldest_rest st :
  maxProfiles (evictOldest st) = maxProfiles st /\
  profileTTL (evictOldest st) = profileTTL st /\
  inProgress (evictOldest st) = inProgress st /\
  timers (evictOldest st) = timers st /\
  nextTimeout (evictOldest st) = nextTimeout st.
Proof.
  unfold evictOldest. case_decide; [|done].
  by destruct (OrderedMap.first_key (profiles st)).
Qed.

Lemma evictOldest_profiles st :
  profiles (evictOldest st) = profiles st \/
  exists oldest e rest, profiles st = (oldest, e) :: rest /\
    maxProfiles st <= OrderedMap.size (profiles st) /\
    profiles (evictOldest st) = OrderedMap.delete oldest (profiles st).
Proof.
  unfold evictOldest. case_decide; [|by left].
  destruct (profiles st) as [|[oldest e] rest] eqn:Hp; simpl; [by left|].
  right. by exists oldest, e, rest.
Qed.

(** The pieces of [storeProfile], named. *)
Lemma storeProfile_unfold id d now st :
  let st2 := evictOldest (with_inProgress st (delete id (inProgress st))) in
  let h := nextTimeout st in
  storeProfile id d now st =
  mkStorage (maxProfiles st) (profileTTL st)
    (OrderedMap.set id {| data := d; expiresAt := now + profileTTL st; timeout := h |}
       (profiles st2))
    (delete id (inProgress st))
    (<[h := {| fireAt := now + timer_delay (profileTTL st); target := id |}]> (timers st))
    (S h).
Proof.
  intros st2 h. unfold storeProfile, setTimeout, with_profiles. fold st2. simpl.
  destruct (evictOldest_rest (with_inProgress st (delete id (inProgress st))))
    as (Hm & Ht & Hi & Htm & Hn).
  fold st2 in Hm, Ht, Hi, Htm, Hn. simpl in *.
  by rewrite Hm, Ht, Hi, Htm, Hn.
Qed.

Lemma cleanup_timers_fold (l : list Entry) st :
  let st1 := fold_left (fun s entry => clearTimeout (timeout entry) s) l st in
  maxProfiles st1 = maxProfiles st /\ profileTTL st1 = profileTTL st /\
  profiles st1 = profiles st /\ inProgress st1 = inProgress st /\
  nextTimeout st1 = nextTimeout st /\
  forall h, timers st1 !! h =
            if decide (h ∈ map timeout l) then None else timers st !! h.
Proof.
  revert st. induction l as [|e l IH]; intros st; simpl.
  - by repeat split.
  - destruct (IH (clearTimeout (timeout e) st)) as (Hm & Ht & Hp & Hi & Hn & Htm).
    simpl in *. repeat split; try done.
    intros h. rewrite Htm. unfold clearTimeout; simpl.
    destruct (decide (h ∈ map timeout l)) as [Hin|Hnin].
    + rewrite decide_True; [done|]. by apply list_elem_of_further.
    + destruct (decide (h = timeout e)) as [->|Hne].
      * rewrite decide_True by apply list_elem_of_here. apply lookup_delete_eq.
      * rewrite decide_False; [by apply lookup_delete_ne|].
        rewrite elem_of_cons. intros [?|?]; done.
Qed.

Lemma cleanup_empty st :
  profiles (cleanup st) = [] /\ inProgress (cleanup st) = ∅ /\
  maxProfiles (cleanup st) = maxProfiles st /\ nextTimeout (cleanup st) = nextTimeout st.
Proof.
  unfold cleanup. simpl.
  destruct (cleanup_timers_fold (OrderedMap.values (profiles st)) st) as (Hm & _ & _ & _ & Hn & _).
  simpl in *. by rewrite Hm, Hn.
Qed.

Lemma cleanup_timers st h :
  timers (cleanup st) !! h =
  if decide (h ∈ map timeout (OrderedMap.values (profiles st))) then None else timers st !! h.
Proof.
  unfold cleanup. simpl.
  by destruct (cleanup_timers_fold (OrderedMap.values (profiles st)) st) as (_ & _ & _ & _ & _ & Htm).
Qed.

Lemma wf_new options : wf (ProfileStorage_new options).
Proof. split; simpl; [apply NoDup_nil_2 | intros h t; by rewrite lookup_empty]. Qed.

Lemma wf_apply_op now op st : wf st -> wf (apply_op now op st).
Proof.
  intros [Hnd Ht]. destruct op as [id dur|id d|id|id| |h]; simpl.
  - done.
  - rewrite storeProfile_unfold. split; simpl.
    + apply OrderedMap.NoDup_set.
      destruct (evictOldest_profiles (with_inProgress st (delete id (inProgress st))))
        as [->|(o & e & r & _ & _ & ->)]; simpl; [done | by apply OrderedMap.NoDup_delete].
    + intros h t. destruct (decide (h = nextTimeout st)) as [->|Hne]; [lia|].
      rewrite lookup_insert_ne by done. intros H. apply Ht in H. lia.
  - destruct (getProfile_rest id now st) as (_ & _ & _ & Htm & Hn). simpl in *.
    split.
    + destruct (getProfile_profiles id now st) as [->| ->];
        [done | by apply OrderedMap.NoDup_delete].
    + rewrite Htm, Hn. done.
  - unfold deleteProfile. split; simpl.
    + destruct (OrderedMap.get id (profiles st)); simpl; by apply OrderedMap.NoDup_delete.
    + intros h t. destruct (OrderedMap.get id (profiles st)) as [e|]; simpl; [|by apply Ht].
      intros Hh. apply lookup_delete_Some in Hh as [_ Hh]. by apply (Ht h t).
  - destruct (cleanup_empty st) as (Hp & _ & _ & Hn). split.
    + rewrite Hp. apply NoDup_nil_2.
    + intros h t. rewrite cleanup_timers, Hn. case_decide; [done | apply Ht].
  - unfold fireTimer. destruct (timers st !! h) as [t|] eqn:Hh; [|done].
    case_decide; [|done]. split; simpl.
    + by apply OrderedMap.NoDup_delete.
    + intros h' t' Hh'. apply lookup_delete_Some in Hh' as [_ Hh']. by apply (Ht h' t').
Qed.

Lemma wf_run_ops ops st : wf st -> wf (run_ops ops st).
Proof.
  revert st. induction ops as [|[now op] rest IH]; intros st Hwf; simpl; [done|].
  apply IH. by apply wf_apply_op.
Qed.

Lemma maxProfiles_apply_op now op st :
  maxProfiles (apply_op now op st) = maxProfiles st /\
  profileTTL (apply_op now op st) = profileTTL st.
Proof.
  destruct op as [id dur|id d|id|id| |h]; cbn [apply_op].
  - done.
  - by rewrite storeProfile_unfold.
  - by destruct (getProfile_rest id now st) as (-> & -> & _).
  - unfold deleteProfile. by destruct (OrderedMap.get id (profiles st)).
  - unfold cleanup. simpl.
    by destruct (cleanup_timers_fold (OrderedMap.values (profiles st)) st) as (-> & -> & _).
  - unfold fireTimer. destruct (timers st !! h); [|done]. by case_decide.
Qed.

Lemma maxProfiles_run_ops ops st :
  maxProfiles (run_ops ops st) = maxProfiles st /\
  profileTTL (run_ops ops st) = profileTTL st.
Proof.
  revert st. induction ops as [|[now op] rest IH]; intros st; simpl; [done|].
  destruct (IH (apply_op now op st)) as [-> ->]. apply maxProfiles_apply_op.
Qed.

(** ** Capacity *)

Lemma evictOldest_size st :
  0 < maxProfiles st ->
  OrderedMap.size (profiles st) <= maxProfiles st ->
  OrderedMap.size (profiles (evictOldest st)) <= maxProfiles st - 1.
Proof.
  unfold evictOldest, OrderedMap.size. intros Hpos Hle. case_decide; [|lia].
  destruct (profiles st) as [|[oldest e] rest]; simpl in *; [lia|].
  rewrite decide_True by done.
  pose proof (OrderedMap.length_delete_le oldest rest). lia.
Qed.

Lemma size_apply_op now op st :
  0 < maxProfiles st ->
  OrderedMap.size (profiles st) <= maxProfiles st ->
  OrderedMap.size (profiles (apply_op now op st)) <= maxProfiles st.
Proof.
  intros Hpos Hle. destruct op as [id dur|id d|id|id| |h]; cbn [apply_op].
  - done.
  - rewrite storeProfile_unfold. cbn [profiles].
    pose proof (evictOldest_size (with_inProgress st (delete id (inProgress st))) Hpos Hle) as He.
    cbn [maxProfiles with_inProgress] in He.
    match goal with |- OrderedMap.size (OrderedMap.set ?k ?v ?m) <= _ =>
      pose proof (OrderedMap.length_set_le k v m) end.
    unfold OrderedMap.size in *. lia.
  - destruct (getProfile_profiles id now st) as [->| ->]; [done|].
    pose proof (OrderedMap.length_delete_le id (profiles st)).
    unfold OrderedMap.size in *. lia.
  - unfold deleteProfile. cbn [profiles with_profiles].
    assert (forall s, profiles s = profiles st ->
              OrderedMap.size (OrderedMap.delete id (profiles s)) <= maxProfiles st) as Hs.
    { intros s ->. pose proof (OrderedMap.length_delete_le id (profiles st)).
      unfold OrderedMap.size in *. lia. }
    apply Hs. by destruct (OrderedMap.get id (profiles st)).
  - destruct (cleanup_empty st) as (-> & _). unfold OrderedMap.size. simpl. lia.
  - unfold fireTimer. destruct (timers st !! h) as [t|]; [|done].
    case_decide; [|done]. cbn [profiles with_profiles].
    pose proof (OrderedMap.length_delete_le (target t) (profiles st)).
    unfold OrderedMap.size in *. lia.
Qed.

Lemma size_run_ops ops st :
  0 < maxProfiles st ->
  OrderedMap.size (profiles st) <= maxProfiles st ->
  OrderedMap.size (profiles (run_ops ops st)) <= maxProfiles st.
Proof.
  revert st. induction ops as [|[now op] rest IH]; intros st Hpos Hle; simpl; [done|].
  destruct (maxProfiles_apply_op now op st) as [Hm _].
  rewrite <- Hm. apply IH; rewrite Hm; [done | by apply size_apply_op].
Qed.

(** What [storeProfile] does to [profiles] when the store is full and the
    identifier is new: the first pair goes, the new pair is appended. *)
Lemma storeProfile_at_capacity id d now st oldest e rest :
  wf st ->
  profiles st = (oldest, e) :: rest ->
  maxProfiles st <= OrderedMap.size (profiles st) ->
  OrderedMap.get id (profiles st) = None ->
  profiles (storeProfile id d now st) =
  rest ++ [(id, {| data := d; expiresAt := now + profileTTL st; timeout := nextTimeout st |})].
Proof.
  intros [Hnd _] Hp Hfull Hfresh. rewrite storeProfile_unfold. cbn [profiles].
  unfold evictOldest. cbn [maxProfiles profiles with_inProgress with_profiles].
  rewrite decide_True by done. rewrite Hp in *. cbn [OrderedMap.first_key OrderedMap.keys fmap list_fmap head fst].
  cbn [profiles]. rewrite OrderedMap.delete_first by done.
  apply OrderedMap.set_fresh.
  simpl in Hfresh. by destruct (decide (oldest = id)).
Qed.

(** C3: with a positive capacity [C], the completed map never holds more
    than [C] records, whatever calls and timers have run; and when
    [storeProfile] receives a new identifier while [C] records are stored,
    exactly the oldest-inserted record is evicted, the new record is
    appended, [C] records remain, the evicted one is no longer returned by
    [getProfile], every other record that [getProfile] returned before is
    still returned, and so is the new one until its expiration. *)
Theorem capacity_fifo_eviction (C : Z) (ttl : option Z) (ops : list (Z * StoreOp)) :
  0 < C ->
  let st := run_ops ops (ProfileStorage_new {| opt_maxProfiles := Some C; opt_profileTTL := ttl |}) in
  maxProfiles st = C /\
  OrderedMap.size (profiles st) <= C /\
  forall id d now,
    OrderedMap.size (profiles st) = C ->
    OrderedMap.get id (profiles st) = None ->
    let st' := storeProfile id d now st in
    exists oldest e rest,
      profiles st = (oldest, e) :: rest /\
      profiles st' =
        rest ++ [(id, {| data := d; expiresAt := now + profileTTL st;
                         timeout := nextTimeout st |})] /\
      OrderedMap.size (profiles st') = C /\
      (forall t, fst (getProfile oldest t st') = None) /\
      (forall k t x, k <> oldest ->
         fst (getProfile k t st) = Some x -> fst (getProfile k t st') = Some x) /\
      (forall t, t <= now + profileTTL st -> fst (getProfile id t st') = Some d).
Proof.
  intros Hpos st.
  set (st0 := ProfileStorage_new {| opt_maxProfiles := Some C; opt_profileTTL := ttl |}) in *.
  assert (maxProfiles st0 = C) as Hm0.
  { simpl. rewrite decide_False by lia. done. }
  assert (maxProfiles st = C) as Hm.
  { unfold st. by destruct (maxProfiles_run_ops ops st0) as [-> _]. }
  assert (wf st) as Hwf by (apply wf_run_ops, wf_new).
  split; [done|]. split.
  { rewrite <- Hm0. apply size_run_ops; rewrite Hm0; [done|]. unfold OrderedMap.size. simpl. lia. }
  intros id d now Hfull Hfresh st'.
  destruct (profiles st) as [|[oldest e] rest] eqn:Hp.
  { unfold OrderedMap.size in Hfull. simpl in Hfull. lia. }
  exists oldest, e, rest.
  assert (profiles st' =
          rest ++ [(id, {| data := d; expiresAt := now + profileTTL st;
                           timeout := nextTimeout st |})]) as Hp'.
  { apply (storeProfile_at_capacity id d now st oldest e rest); try done.
    - rewrite Hp, Hm. lia.
    - by rewrite Hp. }
  assert (oldest <> id) as Hne.
  { simpl in Hfresh. by destruct (decide (oldest = id)). }
  assert (oldest ∉ OrderedMap.keys rest) as Hnin.
  { destruct Hwf as [Hnd _]. rewrite Hp in Hnd. unfold OrderedMap.keys in *. simpl in Hnd.
    by apply NoDup_cons in Hnd as [? _]. }
  assert (forall k, OrderedMap.get k (profiles st') =
                    if decide (k = id)
                    then Some {| data := d; expiresAt := now + profileTTL st;
                                 timeout := nextTimeout st |}
                    else OrderedMap.get k rest) as Hget.
  { intros k. rewrite Hp'.
    assert (OrderedMap.get id rest = None) as Hr.
    { simpl in Hfresh. by rewrite decide_False in Hfresh. }
    rewrite <- (OrderedMap.set_fresh id _ rest Hr).
    destruct (decide (k = id)) as [->|Hk].
    - apply OrderedMap.get_set_eq.
    - by apply OrderedMap.get_set_ne. }
  split; [done|]. split; [done|]. split.
  { rewrite Hp'. unfold OrderedMap.size in *. rewrite length_app. simpl in *. lia. }
  split.
  { intros t. rewrite getProfile_fst, Hget, decide_False by done.
    by apply OrderedMap.get_None in Hnin as ->. }
  split.
  { intros k t x Hk. rewrite !getProfile_fst, Hget, Hp. simpl.
    rewrite decide_False by done.
    destruct (decide (k = id)) as [->|Hkid]; [|done].
    simpl in Hfresh. rewrite decide_False in Hfresh by done. by rewrite Hfresh. }
  intros t Ht. rewrite getProfile_fst, Hget, decide_True by done. simpl.
  by rewrite decide_False by lia.
Qed.

(** Capacity 3 with three records stored: storing a fourth evicts ["a0"]
    and keeps the other three. *)
Lemma capacity_fifo_eviction_witness :
  let st := run_ops three_stores
              (ProfileStorage_new {| opt_maxProfiles := Some 3; opt_profileTTL := Some 1000 |}) in
  let st' := storeProfile "a3" (sampleData "3") 3 st in
  OrderedMap.keys (profiles st) = ["a0"; "a1"; "a2"] /\
  OrderedMap.keys (profiles st') = ["a1"; "a2"; "a3"] /\
  OrderedMap.size (profiles st') = 3 /\
  fst (getProfile "a0" 3 st') = None /\
  fst (getProfile "a1" 3 st') = Some (sampleData "1") /\
  fst (getProfile "a2" 3 st') = Some (sampleData "2") /\
  fst (getProfile "a3" 3 st') = Some (sampleData "3").
Proof.
  intros st st'.
  destruct (capacity_fifo_eviction 3 (Some 1000) three_stores eq_refl) as (_ & _ & H).
  destruct (H "a3" (sampleData "3") 3 eq_refl eq_refl)
    as (oldest & e & rest & Hp & Hp' & Hsz & Hold & Hkeep & Hnew).
  assert (oldest = "a0") as -> by (vm_compute in Hp; congruence).
  split; [reflexivity|]. split; [reflexivity|]. split; [exact Hsz|].
  split; [exact (Hold 3)|].
  split; [apply (Hkeep "a1" 3); [discriminate | reflexivity]|].
  split; [apply (Hkeep "a2" 3); [discriminate | reflexivity]|].
  apply (Hnew 3). vm_compute. discriminate.
Defined.

(** [deleteProfile] clears the record's timer before it deletes the record. *)
Lemma deleteProfile_cancels id e st :
  OrderedMap.get id (profiles st) = Some e ->
  timers (deleteProfile id st) !! timeout e = None /\
  OrderedMap.get id (profiles (deleteProfile id st)) = None.
Proof.
  intros He. unfold deleteProfile. rewrite He. simpl. split.
  - apply lookup_delete_eq.
  - apply OrderedMap.get_delete_eq.
Qed.

(** The eviction step deletes the record and touches no timer. *)
Lemma evictOldest_keeps_timers st : timers (evictOldest st) = timers st.
Proof. by destruct (evictOldest_rest st) as (_ & _ & _ & -> & _). Qed.

(** C2, on the code: after ["a0"] is evicted to make room for ["b1"], the
    timer set for ["a0"] is still active although ["a0"] is no longer
    stored, so the timers do not all belong to stored records. *)
Theorem eviction_leaves_timer_active :
  OrderedMap.keys (profiles evicted_once) = ["b1"] /\
  timers evicted_once !! 0%nat = Some {| fireAt := 1000; target := "a0" |} /\
  ~ no_leaked_timers evicted_once.
Proof.
  split; [reflexivity|]. split; [reflexivity|].
  intros H. destruct (H 0%nat {| fireAt := 1000; target := "a0" |} eq_refl) as (e & He & _).
  vm_compute in He. discriminate.
Qed.

(** ** Teardown *)

Lemma cleanup_nothing_retrievable st id t :
  fst (getProfile id t (cleanup st)) = None /\ isInProgress id (cleanup st) = false.
Proof.
  destruct (cleanup_empty st) as (Hp & Hi & _). split.
  - by rewrite getProfile_fst, Hp.
  - unfold isInProgress. rewrite Hi, lookup_empty.
    apply bool_decide_eq_false. by intros [? ?].
Qed.

(** [cleanup] clears the timer of every record that is stored. *)
Lemma cleanup_clears_stored_timers st id e :
  (id, e) ∈ profiles st -> timers (cleanup st) !! timeout e = None.
Proof.
  intros Hin. rewrite cleanup_timers, decide_True; [done|].
  unfold OrderedMap.values. apply list_elem_of_In, in_map, list_elem_of_In.
  change e with (snd (id, e)). by apply list_elem_of_fmap_2.
Qed.

Lemma cleanup_without_leaks st : no_leaked_timers st -> timers (cleanup st) = ∅.
Proof.
  intros Hnl. apply map_eq. intros h. rewrite lookup_empty.
  destruct (timers (cleanup st) !! h) as [t|] eqn:Hh; [|done].
  pose proof Hh as Hh'. rewrite cleanup_timers in Hh'. case_decide as Hd; [done|].
  destruct (Hnl h t Hh') as (e & He & Heq).
  apply OrderedMap.get_Some_elem, cleanup_clears_stored_timers in He.
  rewrite Heq in He. congruence.
Qed.

(** A timer that survives [cleanup] finds both maps empty and leaves them so. *)
Lemma timer_after_cleanup st h now :
  profiles (fireTimer h now (cleanup st)) = [] /\
  inProgress (fireTimer h now (cleanup st)) = ∅.
Proof.
  destruct (cleanup_empty st) as (Hp & Hi & _).
  unfold fireTimer. destruct (timers (cleanup st) !! h) as [t|]; [|done].
  case_decide; [|done]. cbn [profiles inProgress with_profiles with_timers].
  by rewrite Hp, Hi.
Qed.

(** C9, on the code: [cleanup] empties both maps, but it clears only the
    timers of the records still stored; the timer of the record evicted
    earlier stays active after teardown. *)
Theorem cleanup_misses_leaked_timer :
  profiles (cleanup evicted_once) = [] /\
  inProgress (cleanup evicted_once) = ∅ /\
  timers (cleanup evicted_once) !! 1%nat = None /\
  timers (cleanup evicted_once) !! 0%nat = Some {| fireAt := 1000; target := "a0" |}.
Proof. repeat split; reflexivity. Qed.

(** ** Expiration *)

Lemma storeProfile_get id d now st :
  OrderedMap.get id (profiles (storeProfile id d now st)) =
  Some {| data := d; expiresAt := now + profileTTL st; timeout := nextTimeout st |}.
Proof. rewrite storeProfile_unfold. cbn [profiles]. apply OrderedMap.get_set_eq. Qed.

Lemma storeProfile_timers id d now st :
  timers (storeProfile id d now st) =
  <[nextTimeout st := {| fireAt := now + timer_delay (profileTTL st); target := id |}]>
    (timers st).
Proof. by rewrite storeProfile_unfold. Qed.

Lemma timer_delay_in_range (delay : Z) : 1 <= delay <= 2147483647 -> timer_delay delay = delay.
Proof. intros H. unfold timer_delay. by rewrite decide_True. Qed.

Lemma fireTimer_due h t now st :
  timers st !! h = Some t -> fireAt t <= now ->
  profiles (fireTimer h now st) = OrderedMap.delete (target t) (profiles st) /\
  timers (fireTimer h now st) = delete h (timers st).
Proof. intros Hh Hdue. unfold fireTimer. rewrite Hh. by rewrite decide_True. Qed.

(** C4, as the code has it: a record stored at [t0] under TTL [T] is
    returned by [getProfile] at every [t <= t0 + T] and is absent at every
    [t > t0 + T], by the check made at read time while the scheduled
    removal is still active; at [t = t0 + T] itself it is absent only once
    that removal has run (it is due at [t0 + T] for a TTL Node's timers
    accept).  An identifier with no entry (never stored, evicted, deleted)
    is absent at every time. *)
Theorem expiration_checked_at_read (st : ProfileStorage) (id : string) (d : ProfileData) (t0 : Z) :
  let T := profileTTL st in
  let st' := storeProfile id d t0 st in
  let h := nextTimeout st in
  timers st' !! h = Some {| fireAt := t0 + timer_delay T; target := id |} /\
  (1 <= T <= 2147483647 -> timer_delay T = T) /\
  (forall t, t <= t0 + T -> fst (getProfile id t st') = Some d) /\
  (forall t, t0 + T < t ->
     fst (getProfile id t st') = None /\
     OrderedMap.get id (profiles (snd (getProfile id t st'))) = None /\
     timers (snd (getProfile id t st')) !! h = timers st' !! h) /\
  (forall now t, t0 + timer_delay T <= now ->
     fst (getProfile id t (fireTimer h now st')) = None) /\
  (forall s k t, OrderedMap.get k (profiles s) = None -> fst (getProfile k t s) = None).
Proof.
  intros T st' h. unfold st', T, h.
  assert (timers (storeProfile id d t0 st) !! nextTimeout st =
          Some {| fireAt := t0 + timer_delay (profileTTL st); target := id |}) as Htm.
  { rewrite storeProfile_timers. apply lookup_insert_eq. }
  split; [done|]. split; [apply timer_delay_in_range|]. split; [|split; [|split]].
  - intros t Ht. rewrite getProfile_fst, storeProfile_get. simpl. by rewrite decide_False by lia.
  - intros t Ht. split; [|split].
    + rewrite getProfile_fst, storeProfile_get. simpl. by rewrite decide_True by lia.
    + unfold getProfile. rewrite storeProfile_get. simpl. rewrite decide_True by lia.
      cbn [snd profiles with_profiles]. apply OrderedMap.get_delete_eq.
    + by destruct (getProfile_rest id t (storeProfile id d t0 st)) as (_ & _ & _ & -> & _).
  - intros now t Hnow. rewrite getProfile_fst.
    destruct (fireTimer_due _ _ now _ Htm Hnow) as [-> _]. simpl.
    by rewrite OrderedMap.get_delete_eq.
  - intros s k t Hs. by rewrite getProfile_fst, Hs.
Qed.

(** TTL 1000, stored at time 0: returned at 999, absent at 1001, absent at
    1000 once the timer has run; an unknown identifier is absent. *)
Lemma expiration_checked_at_read_witness :
  let st' := storeProfile "a0" (sampleData "0") 0 ttl_1000 in
  timer_delay (profileTTL ttl_1000) = 1000 /\
  fst (getProfile "a0" 999 st') = Some (sampleData "0") /\
  fst (getProfile "a0" 1001 st') = None /\
  fst (getProfile "a0" 1000 (fireTimer 0 1000 st')) = None /\
  fst (getProfile "ff" 5 st') = None.
Proof.
  destruct (expiration_checked_at_read ttl_1000 "a0" (sampleData "0") 0)
    as (_ & Hdelay & Hlive & Hdead & Hfired & Hnone).
  split; [apply Hdelay; vm_compute; split; discriminate|].
  split; [apply Hlive; vm_compute; discriminate|].
  split; [apply (Hdead 1001); reflexivity|].
  split; [apply (Hfired 1000 1000); vm_compute; discriminate|].
  apply Hnone. reflexivity.
Defined.

(** The boundary of C4: with TTL 1000 a record stored at time 0 is still
    returned at time [0 + 1000] while its timer has not run, because the
    read-time test is [Date.now() > expiresAt]; so a read at [t >= t0 + T]
    does not always find the record absent. *)
Lemma expiration_boundary_counterexample :
  let st' := storeProfile "a0" (sampleData "0") 0 ttl_1000 in
  profileTTL ttl_1000 = 1000 /\
  timers st' !! 0%nat = Some {| fireAt := 1000; target := "a0" |} /\
  fst (getProfile "a0" (0 + 1000) st') = Some (sampleData "0") /\
  fst (getProfile "a0" (0 + 1000) st') <> None.
Proof. repeat split; try reflexivity. discriminate. Qed.

(** ** Storing twice under one identifier *)

(** C10: when [storeProfile] runs again for an identifier already stored,
    the timer of the first call is not cleared: it stays active next to the
    new one, due at the first call's expiration time (for a TTL Node's
    timers accept).  The new record is returned until its own expiration
    as long as that timer has not run; once it runs, the entry is deleted
    and [getProfile] returns nothing at any time, so also before the second
    record's own TTL has elapsed. *)
Theorem restore_keeps_first_timer (st : ProfileStorage) (id : string)
    (d1 d2 : ProfileData) (t0 t1 : Z) :
  let T := profileTTL st in
  let h0 := nextTimeout st in
  let st1 := storeProfile id d1 t0 st in
  let st2 := storeProfile id d2 t1 st1 in
  OrderedMap.get id (profiles st1)
  = Some {| data := d1; expiresAt := t0 + T; timeout := h0 |} /\
  timers st2 !! h0 = Some {| fireAt := t0 + timer_delay T; target := id |} /\
  timers st2 !! S h0 = Some {| fireAt := t1 + timer_delay T; target := id |} /\
  (1 <= T <= 2147483647 -> timer_delay T = T) /\
  (forall t, t <= t1 + T -> fst (getProfile id t st2) = Some d2) /\
  (forall now t, t0 + timer_delay T <= now ->
     OrderedMap.get id (profiles (fireTimer h0 now st2)) = None /\
     fst (getProfile id t (fireTimer h0 now st2)) = None).
Proof.
  intros T h0 st1 st2. unfold st2, st1, h0, T.
  assert (profileTTL (storeProfile id d1 t0 st) = profileTTL st) as HT
    by (by rewrite storeProfile_unfold).
  assert (nextTimeout (storeProfile id d1 t0 st) = S (nextTimeout st)) as Hn
    by (by rewrite storeProfile_unfold).
  assert (timers (storeProfile id d2 t1 (storeProfile id d1 t0 st)) !! nextTimeout st =
          Some {| fireAt := t0 + timer_delay (profileTTL st); target := id |}) as Hold.
  { rewrite !storeProfile_timers, Hn. rewrite lookup_insert_ne by lia. apply lookup_insert_eq. }
  split; [apply storeProfile_get|].
  split; [done|]. split.
  { rewrite storeProfile_timers, Hn, HT. apply lookup_insert_eq. }
  split; [apply timer_delay_in_range|].
  split.
  { intros t Ht. rewrite getProfile_fst, storeProfile_get, HT. simpl.
    by rewrite decide_False by lia. }
  intros now t Hnow.
  destruct (fireTimer_due _ _ now _ Hold Hnow) as [Hp _]. simpl in Hp.
  rewrite getProfile_fst, Hp, OrderedMap.get_delete_eq. done.
Qed.

(** TTL 1000, stored at 0 and again at 400: returned at 1200 while the
    first timer has not run, gone after it runs at 1000. *)
Lemma restore_keeps_first_timer_witness :
  let st2 := storeProfile "a0" (sampleData "1") 400
               (storeProfile "a0" (sampleData "0") 0 ttl_1000) in
  timer_delay (profileTTL ttl_1000) = 1000 /\
  fst (getProfile "a0" 1200 st2) = Some (sampleData "1") /\
  OrderedMap.get "a0" (profiles (fireTimer 0 1000 st2)) = None /\
  fst (getProfile "a0" 1200 (fireTimer 0 1000 st2)) = None.
Proof.
  destruct (restore_keeps_first_timer ttl_1000 "a0" (sampleData "0") (sampleData "1") 0 400)
    as (_ & _ & _ & Hdelay & Hlive & Hgone).
  split; [apply Hdelay; vm_compute; split; discriminate|].
  split; [apply Hlive; vm_compute; discriminate|].
  apply (Hgone 1000 1200). vm_compute. discriminate.
Defined.

Section Properties.
Variable ext : Imports.

(** ** Routing *)

Lemma append_empty_r (s : string) : (s ++ EmptyString)%string = s.
Proof.
  induction s as [|c r IH]; [done|].
  change (String c (r ++ EmptyString)%string = String c r). by rewrite IH.
Qed.

Lemma prefix_slice (a s : string) :
  String.prefix a s = true -> s = (a ++ slice (String.length a) s)%string.
Proof.
  revert s. induction a as [|c a IH]; intros s; [done|].
  destruct s as [|c' s]; [done|]. intros H.
  change (String.prefix (String c a) (String c' s))
    with (if ascii_dec c c' then String.prefix a s else false) in H.
  destruct (ascii_dec c c') as [->|]; [|done].
  change (String c' s = String c' (a ++ slice (String.length a) s)%string).
  f_equal. by apply IH.
Qed.

Lemma resultMatch_Some (subPath hex : string) :
  resultMatch subPath = Some hex ->
  subPath = ("/result/" ++ hex)%string /\ hex <> EmptyString /\ all_chars is_lower_hex hex = true.
Proof.
  unfold resultMatch. destruct (String.prefix "/result/" subPath) eqn:Hpre; [|done].
  apply prefix_slice in Hpre. change (String.length "/result/") with 8%nat in Hpre.
  set (rest := slice 8 subPath) in *.
  destruct (String.eqb rest EmptyString) eqn:Heq; cbn [negb andb]; [done|].
  destruct (all_chars is_lower_hex rest) eqn:Hall; [|done].
  intros [= <-]. split; [done|]. split; [|done].
  by apply String.eqb_neq.
Qed.

(** C1, as the code has it: a request whose path does not start with the
    base path goes to [next] with nothing written and nothing changed; a
    request whose path starts with the base path and is neither the
    start route nor the result route is answered here with the 404
    ["Not found"] error page, and [next] is not called. *)
Theorem unmatched_paths (req : Request) (newId : string) (now : Z) (mw : Middleware) :
  let base := basePath (config mw) in
  (String.prefix base (pathname req) = false ->
     flamegraphMiddleware ext req newId now mw = (CallNext, mw)) /\
  (String.prefix base (pathname req) = true ->
     ~ start_route base (pathname req) ->
     ~ result_route base (pathname req) ->
     flamegraphMiddleware ext req newId now mw = (Respond (sendError msg_not_found 404), mw)).
Proof.
  intros base. unfold flamegraphMiddleware. fold base. split.
  - by intros ->.
  - intros Hpre Hstart Hres. rewrite Hpre. simpl.
    apply prefix_slice in Hpre.
    set (sliced := slice (String.length base) (pathname req)) in *.
    destruct (String.eqb sliced EmptyString) eqn:Hempty.
    { exfalso. apply Hstart. left. apply String.eqb_eq in Hempty.
      rewrite Hpre, Hempty. apply append_empty_r. }
    destruct (String.eqb sliced "/") eqn:Hslash.
    { exfalso. apply Hstart. right. apply String.eqb_eq in Hslash. by rewrite Hpre, Hslash. }
    rewrite Hempty. cbn [orb].
    destruct (resultMatch sliced) as [hex|] eqn:Hm; [|done].
    exfalso. apply Hres. apply resultMatch_Some in Hm as (Hs & Hne & Hall).
    exists hex. by rewrite Hpre, Hs.
Qed.

(** ** Starting a session *)

Lemma Qle_bool_false (x y : Q) : Qle_bool x y = false <-> (y < x)%Q.
Proof.
  split.
  - intros H. apply Qnot_le_lt. intros Hle. apply Qle_bool_iff in Hle. congruence.
  - intros H. destruct (Qle_bool x y) eqn:Hb; [|done].
    apply Qle_bool_iff in Hb. by apply Qlt_not_le in H.
Qed.


(** ** Polling *)

(** C7: a poll of an identifier in progress is answered 200 with the
    progress page showing [duration - elapsed] while that is positive, and
    202 (processing) once it is [<= 0]; a poll of an identifier not in
    progress is answered 200 with the rendered results when [getProfile]
    returns the completed record, and 404 when it returns nothing.
    [getProfile] returns the record stored under the identifier unless the
    time is past its [expiresAt]. *)
Theorem poll_response (profileId : string) (now : Z) (mw : Middleware) :
  let cfg := config mw in
  let out := handleResultPage ext profileId now mw in
  (forall m, inProgress (storage mw) !! profileId = Some m ->
     let left := (duration m - inject_Z (now - startTime m))%Q in
     ((0 < left)%Q ->
        out = ({| statusCode := 200; body := ProgressPage profileId left (basePath cfg) |}, mw)) /\
     ((left <= 0)%Q -> out = (sendError msg_processing 202, mw))) /\
  (inProgress (storage mw) !! profileId = None ->
     (forall pd html,
        fst (getProfile profileId now (storage mw)) = Some pd ->
        generateResultsPage ext (cpu pd) (heap pd) (primaryColor cfg) (secondaryColor cfg)
        = Some html ->
        fst out = {| statusCode := 200; body := ResultsPage html |}) /\
     (fst (getProfile profileId now (storage mw)) = None ->
        fst out = sendError msg_not_found_or_expired 404)) /\
  (forall e, OrderedMap.get profileId (profiles (storage mw)) = Some e ->
     now <= expiresAt e ->
     fst (getProfile profileId now (storage mw)) = Some (data e)) /\
  (OrderedMap.get profileId (profiles (storage mw)) = None ->
     fst (getProfile profileId now (storage mw)) = None).
Proof.
  intros cfg out. split; [|split; [|split]].
  - intros m Hm left. unfold out, handleResultPage, isInProgress, getInProgressMetadata.
    rewrite Hm. rewrite bool_decide_eq_true_2 by eauto. fold cfg. fold left. split.
    + intros Hpos. apply Qle_bool_false in Hpos. rewrite Hpos. cbn [negb]. by rewrite Hpos.
    + intros Hle. apply Qle_bool_iff in Hle. by rewrite Hle.
  - intros Hnone. unfold out, handleResultPage, isInProgress. rewrite Hnone.
    rewrite bool_decide_eq_false_2 by (by intros [? ?]). fold cfg.
    destruct (getProfile profileId now (storage mw)) as [[pd'|] st'] eqn:Hg; cbn [fst]; split.
    + intros pd html [= <-] Hr. by rewrite Hr.
    + done.
    + done.
    + done.
  - intros e He Hlive. rewrite getProfile_fst, He. by rewrite decide_False by lia.
  - intros He. by rewrite getProfile_fst, He.
Qed.

Lemma finish_subseteq id l : (finish id l).*1 ⊆ l.*1.
Proof.
  induction l as [|[k d] r IH]; simpl; [done|].
  destruct (decide (k = id)); simpl.
  - intros x Hx. by apply list_elem_of_further.
  - intros x. rewrite !elem_of_cons. intros [->|Hx]; [by left | right; by apply IH].
Qed.

Lemma finish_NoDup id l : NoDup l.*1 -> NoDup (finish id l).*1.
Proof.
  induction l as [|[k d] r IH]; simpl; [done|].
  rewrite NoDup_cons. intros [Hk Hr].
  destruct (decide (k = id)); simpl; [done|].
  apply NoDup_cons. split; [|by apply IH].
  intros Hin. apply Hk. by apply (finish_subseteq id r).
Qed.

Lemma finish_not_elem id l : NoDup l.*1 -> id ∉ (finish id l).*1.
Proof.
  induction l as [|[k d] r IH]; simpl; [intros _; apply not_elem_of_nil|].
  rewrite NoDup_cons. intros [Hk Hr].
  destruct (decide (k = id)) as [->|Hne]; simpl; [done|].
  rewrite not_elem_of_cons. split; [congruence | by apply IH].
Qed.

Lemma delete_keeps_None {V : Type} k id (m : list (string * V)) :
  OrderedMap.get id m = None -> OrderedMap.get id (OrderedMap.delete k m) = None.
Proof.
  intros H. destruct (decide (k = id)) as [->|Hne].
  - apply OrderedMap.get_delete_eq.
  - by rewrite OrderedMap.get_delete_ne.
Qed.

Lemma handleStartProfiling_effect q req newId now mw :
  Effect now mw (EvRequest req newId) (snd (handleStartProfiling ext q newId now mw)).
Proof.
  unfold handleStartProfiling.
  destruct (requestedDuration ext (config mw) q) as [[dur| |]|]; try apply EffNone.
  destruct (Qle_bool dur 0) eqn:Hpos; [apply EffNone|].
  destruct (Qle_bool dur (inject_Z (maxDuration (config mw)))) eqn:Hmax; cbn [negb];
    [|apply EffNone].
  apply EffAccept; [by apply Qle_bool_false | by apply Qle_bool_iff].
Qed.

Lemma getProfile_shrinks ev id now mw :
  Effect now mw ev (with_storage mw (snd (getProfile id now (storage mw)))).
Proof.
  apply EffShrink.
  - by destruct (getProfile_rest id now (storage mw)) as (_ & _ & -> & _).
  - intros k Hk. destruct (getProfile_profiles id now (storage mw)) as [->| ->];
      [done | by apply delete_keeps_None].
Qed.

Lemma handleResultPage_effect ev profileId now mw :
  Effect now mw ev (snd (handleResultPage ext profileId now mw)).
Proof.
  unfold handleResultPage.
  destruct (isInProgress profileId (storage mw)).
  - destruct (getInProgressMetadata profileId (storage mw)) as [m|]; [|apply EffNone].
    match goal with |- context [negb ?b] => destruct (negb b) end; apply EffNone.
  - pose proof (getProfile_shrinks ev profileId now mw) as Hs.
    destruct (getProfile profileId now (storage mw)) as [[pd|] st']; cbn [snd] in *; [|done].
    by destruct (generateResultsPage _ _ _ _ _).
Qed.

Lemma step_effect now ev mw : Effect now mw ev (step ext now ev mw).
Proof.
  destruct ev as [req newId|profileId result|h]; cbn [step].
  - unfold flamegraphMiddleware.
    destruct (negb (String.prefix (basePath (config mw)) (pathname req))); [apply EffNone|].
    match goal with |- context [if ?b then _ else _] => destruct b end.
    + pose proof (handleStartProfiling_effect (query_duration req) req newId now mw) as He.
      by destruct (handleStartProfiling ext (query_duration req) newId now mw).
    + match goal with |- context [resultMatch ?x] => destruct (resultMatch x) as [pid|] end;
        [|apply EffNone].
      pose proof (handleResultPage_effect (EvRequest req newId) pid now mw) as He.
      by destruct (handleResultPage ext pid now mw).
  - case_decide as Hin; [|apply EffNone].
    destruct result; cbn [collectProfilesInBackground].
    + by apply EffFailed.
    + by apply EffFailed.
    + by apply EffStored.
  - apply EffShrink.
    + unfold fireTimer. destruct (timers (storage mw) !! h) as [t|]; [|done]. by case_decide.
    + intros id Hid. unfold fireTimer. destruct (timers (storage mw) !! h) as [t|]; [|done].
      case_decide; [|done]. cbn [profiles with_profiles]. by apply delete_keeps_None.
Qed.

Lemma fresh_ids_cons now ev rest mw :
  fresh_ids ext ((now, ev) :: rest) mw <-> fresh_step ext now ev mw /\ fresh_ids ext rest (step ext now ev mw).
Proof. done. Qed.

Lemma fresh_ids_app evs1 evs2 mw :
  fresh_ids ext (evs1 ++ evs2) mw <-> fresh_ids ext evs1 mw /\ fresh_ids ext evs2 (run ext evs1 mw).
Proof.
  revert mw. induction evs1 as [|[now ev] rest IH]; intros mw.
  - simpl. tauto.
  - change (((now, ev) :: rest) ++ evs2) with ((now, ev) :: (rest ++ evs2)).
    rewrite !fresh_ids_cons, IH. cbn [run]. tauto.
Qed.

Lemma cons_neq {A : Type} (x : A) (l : list A) : x :: l <> l.
Proof. intros H. apply (f_equal length) in H. simpl in H. lia. Qed.

Lemma Inv_init options : Inv (createFlamegraphMiddleware options).
Proof.
  split; simpl.
  - apply NoDup_nil_2.
  - intros id H. by apply elem_of_nil in H.
  - intros id [m H]. by rewrite lookup_empty in H.
  - intros id H. by apply elem_of_nil in H.
  - done.
Qed.

Lemma storeProfile_other id k d now st :
  k <> id ->
  OrderedMap.get k (profiles st) = None ->
  OrderedMap.get k (profiles (storeProfile id d now st)) = None.
Proof.
  intros Hne Hk. rewrite storeProfile_unfold. cbn [profiles].
  rewrite OrderedMap.get_set_ne by congruence.
  destruct (evictOldest_profiles (with_inProgress st (delete id (inProgress st))))
    as [->|(o & e & r & _ & _ & ->)]; cbn [profiles with_inProgress];
    [done | by apply delete_keeps_None].
Qed.

Lemma storeProfile_keys id k d now st :
  k ∈ OrderedMap.keys (profiles (storeProfile id d now st)) ->
  k = id \/ k ∈ OrderedMap.keys (profiles st).
Proof.
  intros Hk. destruct (decide (k = id)) as [|Hne]; [by left|]. right.
  destruct (decide (k ∈ OrderedMap.keys (profiles st))) as [|Hnin]; [done|].
  apply OrderedMap.get_None in Hnin.
  apply (storeProfile_other id k d now st Hne), OrderedMap.get_None in Hnin. done.
Qed.

Lemma Inv_effect now ev mw mw' :
  Effect now mw ev mw' ->
  (forall req newId, ev = EvRequest req newId ->
     issued mw' = issued mw \/ newId ∉ issued mw) ->
  Inv mw -> Inv mw'.
Proof.
  intros Heff Hfresh [Hnd Hpend Hip Hprof Hdis].
  destruct Heff as [ev|req newId dur _ _|ev st' Hsame Hshr|id c h Hin|id result Hin Hfail].
  - done.
  - assert (newId ∉ issued mw) as Hnew.
    { destruct (Hfresh req newId eq_refl) as [Heq|]; [|done].
      cbn [issued] in Heq. by apply cons_neq in Heq. }
    assert (newId ∉ pending mw) as Hnp by (intros H; by apply Hpend in H as [? _]).
    split; unfold pending in *; cbn [collecting storage issued fmap list_fmap fst].
    + apply NoDup_cons. done.
    + intros id. rewrite elem_of_cons. unfold markInProgress. cbn [inProgress with_inProgress].
      intros [->|Hid].
      * split; [apply list_elem_of_here | rewrite lookup_insert_eq; eauto].
      * destruct (Hpend id Hid) as [Hi Hs]. split; [by apply list_elem_of_further|].
        destruct (decide (newId = id)) as [->|Hne]; [rewrite lookup_insert_eq; eauto|].
        by rewrite lookup_insert_ne.
    + intros id. unfold markInProgress. cbn [inProgress with_inProgress].
      destruct (decide (newId = id)) as [->|Hne]; [intros _; apply list_elem_of_here|].
      rewrite lookup_insert_ne by done. intros H. by apply list_elem_of_further, Hip.
    + intros id H. by apply list_elem_of_further, Hprof.
    + intros id. unfold markInProgress. cbn [inProgress profiles with_inProgress].
      destruct (decide (newId = id)) as [<-|Hne].
      * intros _. apply OrderedMap.get_None. intros H. by apply Hnew, Hprof.
      * rewrite lookup_insert_ne by done. apply Hdis.
  - split; unfold pending in *; cbn [collecting storage issued with_storage]; try done.
    + intros id. rewrite Hsame. apply Hpend.
    + intros id. rewrite Hsame. apply Hip.
    + intros id Hid. apply Hprof.
      destruct (decide (id ∈ OrderedMap.keys (profiles (storage mw)))) as [|Hnin]; [done|].
      apply OrderedMap.get_None, Hshr, OrderedMap.get_None in Hnin. done.
    + intros id. rewrite Hsame. intros H. by apply Hshr, Hdis.
  - split; unfold pending in *; cbn [collecting storage issued].
    + by apply finish_NoDup.
    + intros k Hk. assert (k <> id) as Hne.
      { intros ->. by apply (finish_not_elem id (collecting mw)) in Hnd. }
      apply finish_subseteq in Hk. destruct (Hpend k Hk) as [Hi Hs]. split; [done|].
      rewrite storeProfile_unfold. cbn [inProgress]. by rewrite lookup_delete_ne.
    + intros k. rewrite storeProfile_unfold. cbn [inProgress].
      destruct (decide (id = k)) as [->|Hne]; [rewrite lookup_delete_eq; by intros [? ?]|].
      rewrite lookup_delete_ne by done. apply Hip.
    + intros k Hk. apply storeProfile_keys in Hk as [->|Hk]; [|by apply Hprof].
      by apply Hpend in Hin as [? _].
    + intros k Hk. assert (k <> id) as Hne.
      { intros ->. rewrite storeProfile_unfold in Hk. cbn [inProgress] in Hk.
        rewrite lookup_delete_eq in Hk. by destruct Hk. }
      apply storeProfile_other; [done|]. apply Hdis.
      rewrite storeProfile_unfold in Hk. cbn [inProgress] in Hk.
      by rewrite lookup_delete_ne in Hk.
  - split; unfold pending in *; cbn [collecting storage issued]; try done.
    + by apply finish_NoDup.
    + intros k Hk. apply finish_subseteq in Hk. by apply Hpend.
Qed.

Lemma Inv_step now ev mw : fresh_step ext now ev mw -> Inv mw -> Inv (step ext now ev mw).
Proof.
  intros Hfresh. apply (Inv_effect now ev); [apply step_effect|].
  intros req newId ->. exact Hfresh.
Qed.

Lemma Inv_run evs mw : fresh_ids ext evs mw -> Inv mw -> Inv (run ext evs mw).
Proof.
  revert mw. induction evs as [|[now ev] rest IH]; intros mw Hf Hi; [done|].
  apply fresh_ids_cons in Hf as [Hs Hr]. cbn [run]. apply IH; [done|]. by apply Inv_step.
Qed.

Lemma stuck_effect now ev mw mw' id m :
  Effect now mw ev mw' ->
  (forall req newId, ev = EvRequest req newId ->
     issued mw' = issued mw \/ newId ∉ issued mw) ->
  stuck id m mw -> stuck id m mw'.
Proof.
  intros Heff Hfresh (Hiss & Hnp & Hm & Hnone).
  destruct Heff as [ev|req newId dur _ _|ev st' Hsame Hshr|k c h Hin|k result Hin Hfail];
    unfold stuck, pending in *; cbn [collecting storage issued with_storage].
  - done.
  - assert (newId <> id) as Hne.
    { intros ->. destruct (Hfresh req id eq_refl) as [Heq|]; [|done].
      cbn [issued] in Heq. by apply cons_neq in Heq. }
    cbn [fmap list_fmap fst]. rewrite not_elem_of_cons.
    unfold markInProgress. cbn [inProgress profiles with_inProgress].
    rewrite lookup_insert_ne by done.
    split; [by apply list_elem_of_further|]. split; [split; [congruence | done]|]. done.
  - rewrite Hsame. split; [done|]. split; [done|]. split; [done | by apply Hshr].
  - assert (k <> id) as Hne by (intros ->; exact (Hnp Hin)).
    split; [done|]. split.
    { intros H. by apply finish_subseteq in H. }
    split; [|by apply storeProfile_other].
    rewrite storeProfile_unfold. cbn [inProgress]. by rewrite lookup_delete_ne.
  - split; [done|]. split; [|done]. intros H. by apply finish_subseteq in H.
Qed.

Lemma stuck_run evs mw id m : fresh_ids ext evs mw -> stuck id m mw -> stuck id m (run ext evs mw).
Proof.
  revert mw. induction evs as [|[now ev] rest IH]; intros mw Hf Hs; [done|].
  apply fresh_ids_cons in Hf as [Hstep Hr]. cbn [run]. apply IH; [done|].
  apply (stuck_effect now ev mw); [apply step_effect | | done].
  intros req newId ->. exact Hstep.
Qed.



(** C8: identifiers being fresh, when the collection of a session fails
    (CPU or heap collection or the encoding throws), that event changes
    nothing in the store, and after any further requests, collections and
    timers the session is still recorded as in progress with the metadata
    it had, and has no completed record: [storeProfile] was never called
    for it. *)
Theorem failed_collection_stays_in_progress (options : MiddlewareOptions)
    (evs1 evs2 : list (Z * Event)) (now : Z) (profileId : string) (result : CollectResult) :
  let mw1 := run ext evs1 (createFlamegraphMiddleware options) in
  let mw2 := step ext now (EvSettle profileId result) mw1 in
  let mw3 := run ext evs2 mw2 in
  fresh_ids ext (evs1 ++ (now, EvSettle profileId result) :: evs2)
    (createFlamegraphMiddleware options) ->
  profileId ∈ pending mw1 ->
  result = CollectionThrows \/ result = EncodingThrows ->
  storage mw2 = storage mw1 /\
  isInProgress profileId (storage mw3) = true /\
  getInProgressMetadata profileId (storage mw3)
  = getInProgressMetadata profileId (storage mw1) /\
  OrderedMap.get profileId (profiles (storage mw3)) = None /\
  (forall t, fst (getProfile profileId t (storage mw3)) = None).
Proof.
  intros mw1 mw2 mw3 Hfresh Hpend Hres.
  apply fresh_ids_app in Hfresh as [Hf1 Hf2]. fold mw1 in Hf2.
  apply fresh_ids_cons in Hf2 as [_ Hf2]. fold mw2 in Hf2.
  assert (Inv mw1) as [Hnd Hp Hip Hprof Hdis] by (apply Inv_run; [done | apply Inv_init]).
  destruct (Hp profileId Hpend) as [Hiss [m Hm]].
  assert (mw2 = mkMiddleware (config mw1) (storage mw1)
                  (finish profileId (collecting mw1)) (issued mw1)) as Hmw2.
  { unfold mw2. cbn [step]. rewrite decide_True by done. by destruct Hres as [-> | ->]. }
  assert (stuck profileId m mw2) as Hstuck.
  { rewrite Hmw2. unfold stuck, pending. cbn [collecting storage issued].
    split; [done|]. split; [by apply finish_not_elem|]. split; [done|]. apply Hdis. eauto. }
  apply (stuck_run evs2 mw2) in Hstuck; [|done]. fold mw3 in Hstuck.
  destruct Hstuck as (_ & _ & Hm3 & Hnone).
  split; [by rewrite Hmw2|]. split.
  { unfold isInProgress. rewrite Hm3. apply bool_decide_eq_true_2. eauto. }
  split; [unfold getInProgressMetadata; by rewrite Hm3, Hm|].
  split; [done|]. intros t. by rewrite getProfile_fst, Hnone.
Qed.

(** ** In progress or completed, never both *)

Lemma storeProfile_not_in_progress id d now st :
  isInProgress id (storeProfile id d now st) = false.
Proof.
  unfold isInProgress. rewrite storeProfile_unfold. cbn [inProgress].
  rewrite lookup_delete_eq. apply bool_decide_eq_false_2. by intros [? ?].
Qed.

(** C5: identifiers being fresh, in every state the middleware reaches no
    identifier is both in progress and completed; [storeProfile] deletes
    the in-progress entry before it inserts the record, so [isInProgress]
    is false right after it while the record is stored; and a poll of an
    identifier found in neither map is answered 404, not found or
    expired. *)
Theorem in_progress_xor_completed (options : MiddlewareOptions) (evs : list (Z * Event)) :
  let mw := run ext evs (createFlamegraphMiddleware options) in
  fresh_ids ext evs (createFlamegraphMiddleware options) ->
  (forall id, ~ (isInProgress id (storage mw) = true /\
                 is_Some (OrderedMap.get id (profiles (storage mw))))) /\
  (forall st id d now,
     isInProgress id (storeProfile id d now st) = false /\
     is_Some (OrderedMap.get id (profiles (storeProfile id d now st)))) /\
  (forall id now,
     isInProgress id (storage mw) = false ->
     OrderedMap.get id (profiles (storage mw)) = None ->
     fst (handleResultPage ext id now mw) = sendError msg_not_found_or_expired 404).
Proof.
  intros mw Hfresh.
  assert (Inv mw) as [_ _ _ _ Hdis] by (apply Inv_run; [done | apply Inv_init]).
  split; [|split].
  - intros id [Hip [e He]]. apply bool_decide_eq_true_1 in Hip.
    rewrite (Hdis id Hip) in He. done.
  - intros st id d now. split; [apply storeProfile_not_in_progress|].
    rewrite storeProfile_get. eauto.
  - intros id now Hip Hnone. unfold handleResultPage. rewrite Hip.
    unfold getProfile. by rewrite Hnone.
Qed.

End Properties.

Example start_30s :
  fst (handleStartProfiling example_imports (Some "30s") "0a" 0
         (createFlamegraphMiddleware no_options))
  = {| statusCode := 200; body := ProgressPage "0a" (inject_Z 30000) "/flamegraph" |}.
Proof. reflexivity. Qed.

Example start_default_100 :
  fst (handleStartProfiling example_imports None "0a" 0
         (createFlamegraphMiddleware test_options))
  = {| statusCode := 200; body := ProgressPage "0a" (inject_Z 100) "/flamegraph" |}.
Proof. reflexivity. Qed.

Example start_1000_exceeds :
  fst (handleStartProfiling example_imports (Some "1000") "0a" 0
         (createFlamegraphMiddleware test_options))
  = sendError "Duration exceeds maximum allowed (500ms)" 400.
Proof. reflexivity. Qed.


(** A session of 2000 ms started at time 0: polled at 500 and at 2500
    while in progress, and after its collection was stored at 2100. *)
Lemma poll_response_witness :
  handleResultPage example_imports "0a" 500 started_2000
  = ({| statusCode := 200; body := ProgressPage "0a" (1500 # 1) "/flamegraph" |}, started_2000) /\
  handleResultPage example_imports "0a" 2500 started_2000
  = (sendError msg_processing 202, started_2000) /\
  fst (handleResultPage example_imports "0a" 2200 completed_2100)
  = {| statusCode := 200; body := ResultsPage "cpuheap" |} /\
  fst (handleResultPage example_imports "ff" 2200 completed_2100)
  = sendError msg_not_found_or_expired 404.
Proof.
  split.
  { destruct (poll_response example_imports "0a" 500 started_2000) as (Hrun & _).
    apply (Hrun {| duration := inject_Z 2000; startTime := 0 |}); reflexivity. }
  split.
  { destruct (poll_response example_imports "0a" 2500 started_2000) as (Hrun & _).
    apply (Hrun {| duration := inject_Z 2000; startTime := 0 |});
      [reflexivity | vm_compute; discriminate]. }
  split.
  { destruct (poll_response example_imports "0a" 2200 completed_2100) as (_ & Hdone & Hlive & _).
    apply (proj1 (Hdone eq_refl) {| cpu := "cpu"; heap := "heap" |}); [|reflexivity].
    apply (Hlive {| data := {| cpu := "cpu"; heap := "heap" |};
                    expiresAt := 2100 + 5 * 60 * 1000; timeout := 0 |});
      [reflexivity | vm_compute; discriminate]. }
  destruct (poll_response example_imports "ff" 2200 completed_2100) as (_ & Hdone & _ & Hnone).
  apply (proj2 (Hdone eq_refl)). apply Hnone. reflexivity.
Defined.

(** [/other-path] goes to [next]; [/flamegraph/other] gets the 404 page. *)
Lemma unmatched_paths_witness :
  let mw := createFlamegraphMiddleware no_options in
  flamegraphMiddleware example_imports (get_ "/other-path" None) "0a" 0 mw
  = (CallNext, mw) /\
  flamegraphMiddleware example_imports (get_ "/flamegraph/other" None) "0a" 0 mw
  = (Respond (sendError msg_not_found 404), mw).
Proof.
  intros mw. split.
  - apply (unmatched_paths example_imports (get_ "/other-path" None) "0a" 0 mw).
    reflexivity.
  - apply (unmatched_paths example_imports
             (get_ "/flamegraph/other" None) "0a" 0 mw).
    + reflexivity.
    + intros [H|H]; vm_compute in H; discriminate.
    + intros (hex & _ & _ & H). vm_compute in H. discriminate.
Defined.

(** Under the base path C1's pass-through does not happen:
    [/flamegraph/other] starts with the base path, is neither route, and
    is answered with a 404 page; [next] is not called. *)
Lemma unmatched_under_base_counterexample :
  let mw := createFlamegraphMiddleware no_options in
  let req := get_ "/flamegraph/other" None in
  String.prefix (basePath (config mw)) (pathname req) = true /\
  ~ start_route (basePath (config mw)) (pathname req) /\
  ~ result_route (basePath (config mw)) (pathname req) /\
  fst (flamegraphMiddleware example_imports req "0a" 0 mw)
  = Respond {| statusCode := 404; body := ErrorPage "Not found" 404 |} /\
  fst (flamegraphMiddleware example_imports req "0a" 0 mw) <> CallNext.
Proof.
  intros mw req. split; [reflexivity|]. split.
  { intros [H|H]; vm_compute in H; discriminate. }
  split.
  { intros (hex & _ & _ & H). vm_compute in H. discriminate. }
  split; [reflexivity | discriminate].
Qed.

(** Session ["0a"] fails at time 150; a poll, another session and its
    completion, and a timer later it is still in progress. *)
Lemma failed_collection_stays_in_progress_witness :
  let run := run example_imports in
  let step := step example_imports in
  let mw1 := run start_then_fail (createFlamegraphMiddleware no_options) in
  let mw3 := run after_failure (step 150 (EvSettle "0a" CollectionThrows) mw1) in
  storage (step 150 (EvSettle "0a" CollectionThrows) mw1) = storage mw1 /\
  isInProgress "0a" (storage mw3) = true /\
  getInProgressMetadata "0a" (storage mw3) = getInProgressMetadata "0a" (storage mw1) /\
  OrderedMap.get "0a" (profiles (storage mw3)) = None /\
  (forall t, fst (getProfile "0a" t (storage mw3)) = None).
Proof.
  apply (failed_collection_stays_in_progress example_imports no_options
           start_then_fail after_failure 150 "0a" CollectionThrows).
  - repeat (split; [first [exact I | left; reflexivity | right; apply not_elem_of_nil
                          | right; vm_compute; intros H; inversion H; subst;
                            match goal with X : _ ∈ _ |- _ => inversion X end] |]).
    exact I.
  - apply list_elem_of_here.
  - by left.
Defined.

(** A session started, polled, completed and polled again. *)
Lemma in_progress_xor_completed_witness :
  let mw := run example_imports start_and_complete
              (createFlamegraphMiddleware no_options) in
  (forall id, ~ (isInProgress id (storage mw) = true /\
                 is_Some (OrderedMap.get id (profiles (storage mw))))) /\
  isInProgress "0a" (storage mw) = false /\
  is_Some (OrderedMap.get "0a" (profiles (storage mw))) /\
  fst (handleResultPage example_imports "ff" 300 mw) = sendError msg_not_found_or_expired 404.
Proof.
  destruct (in_progress_xor_completed example_imports no_options
              start_and_complete) as (Hdis & _ & Hnone).
  - repeat (split; [first [exact I | left; reflexivity | right; apply not_elem_of_nil] |]).
    exact I.
  - split; [exact Hdis|]. split; [reflexivity|]. split; [vm_compute; eauto|].
    apply Hnone; reflexivity.
Defined.

(** * Further properties of the store *)

(** [deleteProfile] removes the record of [id] and clears its timer; every
    other record, every in-progress entry and every other timer is left as
    it was; deleting an identifier that is not stored changes nothing, so
    deleting twice is deleting once. *)
Theorem deleteProfile_effect (id : string) (st : ProfileStorage) :
  let st' := deleteProfile id st in
  OrderedMap.get id (profiles st') = None /\
  (forall k, k <> id -> OrderedMap.get k (profiles st') = OrderedMap.get k (profiles st)) /\
  inProgress st' = inProgress st /\
  (forall e, OrderedMap.get id (profiles st) = Some e ->
     timers st' = delete (timeout e) (timers st)) /\
  (OrderedMap.get id (profiles st) = None -> st' = st) /\
  deleteProfile id st' = st'.
Proof.
  intros st'. unfold st'.
  assert (forall s, OrderedMap.get id (profiles s) = None -> deleteProfile id s = s) as Habsent.
  { intros s Hs. unfold deleteProfile. rewrite Hs.
    apply OrderedMap.get_None in Hs. rewrite OrderedMap.delete_absent by done.
    by destruct s. }
  assert (OrderedMap.get id (profiles (deleteProfile id st)) = None) as Hgone.
  { unfold deleteProfile. cbn [profiles with_profiles]. apply OrderedMap.get_delete_eq. }
  split; [done|]. split.
  { intros k Hk. unfold deleteProfile. cbn [profiles with_profiles].
    rewrite OrderedMap.get_delete_ne by congruence.
    by destruct (OrderedMap.get id (profiles st)). }
  split.
  { unfold deleteProfile. by destruct (OrderedMap.get id (profiles st)). }
  split.
  { intros e He. unfold deleteProfile. by rewrite He. }
  split; [apply Habsent | by apply Habsent].
Qed.

(** Deleting ["a0"] from a store holding ["a0"] and ["b1"]. *)
Lemma deleteProfile_effect_witness :
  let st' := deleteProfile "a0" two_stored in
  OrderedMap.get "b1" (profiles st') = OrderedMap.get "b1" (profiles two_stored) /\
  timers st' = delete 0%nat (timers two_stored) /\
  deleteProfile "ff" two_stored = two_stored.
Proof.
  destruct (deleteProfile_effect "a0" two_stored) as (_ & Hother & _ & Htimer & _).
  destruct (deleteProfile_effect "ff" two_stored) as (_ & _ & _ & _ & Habsent & _).
  split; [apply Hother; discriminate|].
  split; [apply (Htimer {| data := sampleData "0"; expiresAt := 1000; timeout := 0 |});
          reflexivity|].
  apply Habsent. reflexivity.
Defined.

(** A timer that was cleared never runs: after [deleteProfile], and after
    [cleanup], the event loop finds the record's timer gone and the store
    is left as it is, whatever the time. *)
Theorem cleared_timer_never_runs (id : string) (e : Entry) (now : Z) (st : ProfileStorage) :
  (OrderedMap.get id (profiles st) = Some e ->
     fireTimer (timeout e) now (deleteProfile id st) = deleteProfile id st) /\
  ((id, e) ∈ profiles st ->
     fireTimer (timeout e) now (cleanup st) = cleanup st).
Proof.
  split.
  - intros He. unfold fireTimer.
    assert (timers (deleteProfile id st) !! timeout e = None) as ->; [|done].
    unfold deleteProfile. rewrite He. cbn [timers with_profiles clearTimeout with_timers].
    apply lookup_delete_eq.
  - intros Hin. unfold fireTimer.
    by rewrite (cleanup_clears_stored_timers st id e Hin).
Qed.

Lemma cleared_timer_never_runs_witness :
  fireTimer 0 5000 (deleteProfile "a0" two_stored) = deleteProfile "a0" two_stored /\
  fireTimer 0 5000 (cleanup two_stored) = cleanup two_stored.
Proof.
  destruct (cleared_timer_never_runs "a0"
              {| data := sampleData "0"; expiresAt := 1000; timeout := 0 |} 5000 two_stored)
    as [Hdel Hclean].
  split; [apply Hdel; reflexivity|].
  apply Hclean. apply list_elem_of_here.
Defined.

(** [markInProgress] then [getInProgressMetadata]: the metadata read back is
    the duration given and the time of the call; a second call for the same
    identifier replaces the first; other identifiers, the completed
    records and the timers are not touched. *)
Theorem markInProgress_lookup (id : string) (d d' : Q) (now now' : Z) (st : ProfileStorage) :
  let st' := markInProgress id d now st in
  isInProgress id st' = true /\
  getInProgressMetadata id st' = Some {| duration := d; startTime := now |} /\
  getInProgressMetadata id (markInProgress id d' now' st')
  = Some {| duration := d'; startTime := now' |} /\
  (forall k, k <> id ->
     getInProgressMetadata k st' = getInProgressMetadata k st /\
     isInProgress k st' = isInProgress k st) /\
  profiles st' = profiles st /\ timers st' = timers st.
Proof.
  intros st'. unfold st', isInProgress, getInProgressMetadata, markInProgress.
  cbn [inProgress profiles timers with_inProgress].
  rewrite !lookup_insert_eq.
  split; [apply bool_decide_eq_true_2; eauto|]. split; [done|]. split; [done|].
  split; [|done]. intros k Hk. by rewrite lookup_insert_ne.
Qed.

Lemma markInProgress_lookup_witness :
  getInProgressMetadata "b1" (markInProgress "a0" (inject_Z 100) 7 two_stored)
  = getInProgressMetadata "b1" two_stored.
Proof.
  destruct (markInProgress_lookup "a0" (inject_Z 100) (inject_Z 200) 7 8 two_stored)
    as (_ & _ & _ & Hother & _).
  apply Hother. discriminate.
Defined.

(** [getProfile] is a read: it never touches the in-progress map or the
    timers, never changes what is stored under another identifier, and
    leaves the store exactly as it was whenever it returns a record; the
    only thing it ever removes is the requested record, when that record
    is past its expiration. *)
Theorem getProfile_only_drops_expired (id : string) (now : Z) (st : ProfileStorage) :
  let st' := snd (getProfile id now st) in
  inProgress st' = inProgress st /\ timers st' = timers st /\
  (forall k, k <> id -> OrderedMap.get k (profiles st') = OrderedMap.get k (profiles st)) /\
  (forall d, fst (getProfile id now st) = Some d -> st' = st) /\
  (st' <> st ->
     exists e, OrderedMap.get id (profiles st) = Some e /\ expiresAt e < now /\
               OrderedMap.get id (profiles st') = None).
Proof.
  intros st'. unfold st'.
  destruct (getProfile_rest id now st) as (_ & _ & Hi & Ht & _).
  split; [done|]. split; [done|]. unfold getProfile.
  destruct (OrderedMap.get id (profiles st)) as [e|] eqn:He; cbn [fst snd].
  - destruct (decide (expiresAt e < now)) as [Hexp|Hlive]; cbn [fst snd].
    + split.
      { intros k Hk. cbn [profiles with_profiles]. apply OrderedMap.get_delete_ne. congruence. }
      split; [done|]. intros _. exists e. split; [done|]. split; [done|].
      cbn [profiles with_profiles]. apply OrderedMap.get_delete_eq.
    + split; [done|]. split; [done|]. intros H. by destruct H.
  - split; [done|]. split; [done|]. intros H. by destruct H.
Qed.

Lemma getProfile_only_drops_expired_witness :
  OrderedMap.get "b1" (profiles (snd (getProfile "a0" 1001 two_stored)))
  = OrderedMap.get "b1" (profiles two_stored) /\
  snd (getProfile "a0" 1000 two_stored) = two_stored /\
  OrderedMap.get "a0" (profiles (snd (getProfile "a0" 1001 two_stored))) = None.
Proof.
  destruct (getProfile_only_drops_expired "a0" 1001 two_stored) as (_ & _ & Hother & _ & Hdrop).
  destruct (getProfile_only_drops_expired "a0" 1000 two_stored) as (_ & _ & _ & Hsame & _).
  split; [apply Hother; discriminate|].
  split; [apply (Hsame (sampleData "0")); reflexivity|].
  destruct Hdrop as (e & _ & _ & Hgone); [vm_compute; discriminate | exact Hgone].
Defined.

(** [storeProfile] removes no record but the oldest: for any identifier
    other than the one stored, its record is still there afterwards unless
    the store was full and it was the first key of the map; below capacity
    every other record stays. *)
Theorem storeProfile_drops_only_oldest (id k : string) (d : ProfileData) (now : Z)
    (st : ProfileStorage) :
  let st' := storeProfile id d now st in
  k <> id ->
  (OrderedMap.get k (profiles st') = OrderedMap.get k (profiles st) \/
   maxProfiles st <= OrderedMap.size (profiles st) /\
   OrderedMap.first_key (profiles st) = Some k /\
   OrderedMap.get k (profiles st') = None) /\
  (OrderedMap.size (profiles st) < maxProfiles st ->
   OrderedMap.get k (profiles st') = OrderedMap.get k (profiles st)).
Proof.
  intros st' Hk. unfold st'. rewrite storeProfile_unfold. cbn [profiles].
  rewrite OrderedMap.get_set_ne by congruence. split.
  - destruct (evictOldest_profiles (with_inProgress st (delete id (inProgress st))))
      as [->|(o & e & r & Hp & Hfull & ->)]; cbn [profiles maxProfiles with_inProgress] in *;
      [by left|].
    destruct (decide (o = k)) as [->|Hne].
    + right. split; [done|]. split; [by rewrite Hp|]. apply OrderedMap.get_delete_eq.
    + left. by apply OrderedMap.get_delete_ne.
  - intros Hroom. unfold evictOldest. cbn [profiles maxProfiles with_inProgress].
    by rewrite decide_False by lia.
Qed.

Lemma storeProfile_drops_only_oldest_witness :
  OrderedMap.get "a0" (profiles (storeProfile "c2" (sampleData "2") 2 two_stored))
  = OrderedMap.get "a0" (profiles two_stored).
Proof.
  destruct (storeProfile_drops_only_oldest "c2" "a0" (sampleData "2") 2 two_stored)
    as [_ Hroom]; [discriminate|].
  apply Hroom. reflexivity.
Defined.

(** Storing again under an identifier that is already stored, while the
    store is full, still evicts the oldest record: the capacity test comes
    before the map is asked whether the identifier is new.  When the
    identifier is not the oldest, the store ends one record short and the
    updated record keeps its place; when it is the oldest itself, its own
    record is the one evicted and the new one goes to the end of the
    order, the size unchanged.  Either way the new record is what is
    stored under the identifier. *)
Theorem restore_at_capacity_evicts (id oldest : string) (e0 : Entry)
    (rest : list (string * Entry)) (d : ProfileData) (now : Z) (st : ProfileStorage) :
  let st' := storeProfile id d now st in
  let e' := {| data := d; expiresAt := now + profileTTL st; timeout := nextTimeout st |} in
  wf st ->
  profiles st = (oldest, e0) :: rest ->
  maxProfiles st <= OrderedMap.size (profiles st) ->
  is_Some (OrderedMap.get id (profiles st)) ->
  OrderedMap.get id (profiles st') = Some e' /\
  (oldest <> id ->
     OrderedMap.keys (profiles st') = OrderedMap.keys rest /\
     OrderedMap.size (profiles st') = OrderedMap.size (profiles st) - 1 /\
     OrderedMap.get oldest (profiles st') = None) /\
  (oldest = id ->
     profiles st' = rest ++ [(id, e')] /\
     OrderedMap.size (profiles st') = OrderedMap.size (profiles st)).
Proof.
  intros st' e' [Hnd _] Hp Hfull [e He]. unfold st'.
  assert (profiles (storeProfile id d now st) = OrderedMap.set id e' rest) as Hp'.
  { rewrite storeProfile_unfold. cbn [profiles]. f_equal.
    unfold evictOldest. cbn [maxProfiles profiles with_inProgress with_profiles].
    rewrite decide_True by done. rewrite Hp in *.
    cbn [OrderedMap.first_key OrderedMap.keys fmap list_fmap head fst profiles].
    by apply OrderedMap.delete_first. }
  assert (oldest ∉ OrderedMap.keys rest) as Hold.
  { rewrite Hp in Hnd. unfold OrderedMap.keys in *. simpl in Hnd.
    by apply NoDup_cons in Hnd as [? _]. }
  split; [rewrite Hp'; apply OrderedMap.get_set_eq|].
  split.
  - intros Hne.
    assert (id ∈ OrderedMap.keys rest) as Hin.
    { rewrite Hp in He. simpl in He. rewrite decide_False in He by done.
      destruct (decide (id ∈ OrderedMap.keys rest)) as [|Hnin]; [done|].
      apply OrderedMap.get_None in Hnin. congruence. }
    assert (OrderedMap.keys (profiles (storeProfile id d now st)) = OrderedMap.keys rest)
      as Hkeys.
    { rewrite Hp'. by apply OrderedMap.keys_set_present. }
    split; [done|]. split.
    { apply (f_equal length) in Hkeys. unfold OrderedMap.keys, OrderedMap.size in *.
      rewrite !length_fmap in Hkeys. rewrite Hkeys, Hp. simpl. lia. }
    rewrite Hp', OrderedMap.get_set_ne by congruence. by apply OrderedMap.get_None.
  - intros ->.
    assert (profiles (storeProfile id d now st) = rest ++ [(id, e')]) as Hend.
    { rewrite Hp'. apply OrderedMap.set_fresh. by apply OrderedMap.get_None. }
    split; [done|].
    rewrite Hend, Hp. unfold OrderedMap.size. rewrite length_app. simpl. lia.
Qed.

Lemma restore_at_capacity_evicts_witness :
  let later := storeProfile "b1" (sampleData "2") 2 full_of_two in
  let first := storeProfile "a0" (sampleData "2") 2 full_of_two in
  (OrderedMap.keys (profiles later) = ["b1"] /\
   OrderedMap.size (profiles later) = OrderedMap.size (profiles full_of_two) - 1 /\
   OrderedMap.get "a0" (profiles later) = None) /\
  (OrderedMap.keys (profiles first) = ["b1"; "a0"] /\
   OrderedMap.size (profiles first) = OrderedMap.size (profiles full_of_two)).
Proof.
  assert (wf full_of_two) as Hwf.
  { apply (wf_run_ops [(0, OpStoreProfile "a0" (sampleData "0"));
                        (1, OpStoreProfile "b1" (sampleData "1"))]
             (ProfileStorage_new {| opt_maxProfiles := Some 2; opt_profileTTL := Some 1000 |})),
      wf_new. }
  split.
  - destruct (restore_at_capacity_evicts "b1" "a0"
                {| data := sampleData "0"; expiresAt := 1000; timeout := 0 |}
                [("b1", {| data := sampleData "1"; expiresAt := 1001; timeout := 1%nat |})]
                (sampleData "2") 2 full_of_two)
      as (_ & Hother & _).
    + exact Hwf.
    + reflexivity.
    + vm_compute. discriminate.
    + vm_compute. eauto.
    + apply Hother. discriminate.
  - destruct (restore_at_capacity_evicts "a0" "a0"
                {| data := sampleData "0"; expiresAt := 1000; timeout := 0 |}
                [("b1", {| data := sampleData "1"; expiresAt := 1001; timeout := 1%nat |})]
                (sampleData "2") 2 full_of_two)
      as (_ & _ & Hself).
    + exact Hwf.
    + reflexivity.
    + vm_compute. discriminate.
    + vm_compute. eauto.
    + destruct (Hself eq_refl) as [Hend Hsize].
      split; [|exact Hsize]. exact (f_equal OrderedMap.keys Hend).
Defined.

(** Along a history in which no record is ever evicted, overwritten or read
    after its expiration, every active timer belongs to the record stored
    under its identifier, and [cleanup] then leaves no timer active and
    nothing stored or in progress. *)
Theorem gentle_history_leaves_no_timer (options : StorageOptions) (ops : list (Z * StoreOp)) :
  let st := run_ops ops (ProfileStorage_new options) in
  gentle_history ops (ProfileStorage_new options) ->
  no_leaked_timers st /\
  timers (cleanup st) = ∅ /\ profiles (cleanup st) = [] /\ inProgress (cleanup st) = ∅.
Proof.
  intros st Hg.
  assert (forall now op s, gentle now op s -> no_leaked_timers s ->
            no_leaked_timers (apply_op now op s)) as Hstep.
  { intros now op s Hgentle Hnl.
    destruct op as [id dur|id d|id|id| |h]; cbn [apply_op gentle] in *.
    - done.
    - destruct Hgentle as [Hroom Hfresh]. rewrite storeProfile_unfold.
      unfold no_leaked_timers. cbn [timers profiles].
      assert (profiles (evictOldest (with_inProgress s (delete id (inProgress s)))) = profiles s)
        as ->.
      { unfold evictOldest. cbn [maxProfiles profiles with_inProgress].
        by rewrite decide_False by lia. }
      intros h t. destruct (decide (nextTimeout s = h)) as [<-|Hne].
      + rewrite lookup_insert_eq. intros [= <-]. cbn [target].
        rewrite OrderedMap.get_set_eq. eauto.
      + rewrite lookup_insert_ne by done. intros Hh.
        destruct (Hnl h t Hh) as (e & He & Heq).
        exists e. split; [|done]. rewrite OrderedMap.get_set_ne; [done|].
        intros ->. congruence.
    - unfold getProfile.
      destruct (OrderedMap.get id (profiles s)) as [e|] eqn:He; cbn [snd]; [|done].
      rewrite decide_False; [done|]. specialize (Hgentle e eq_refl). lia.
    - unfold no_leaked_timers, deleteProfile.
      destruct (OrderedMap.get id (profiles s)) as [e|] eqn:He;
        cbn [timers profiles with_profiles clearTimeout with_timers]; intros h t Hh.
      + apply lookup_delete_Some in Hh as [Hne Hh].
        destruct (Hnl h t Hh) as (e' & He' & Heq).
        exists e'. split; [|done]. rewrite OrderedMap.get_delete_ne; [done|].
        intros ->. rewrite He in He'. congruence.
      + destruct (Hnl h t Hh) as (e' & He' & Heq).
        exists e'. split; [|done]. rewrite OrderedMap.get_delete_ne; [done|].
        intros ->. congruence.
    - intros h t Hh. rewrite (cleanup_without_leaks s Hnl) in Hh. by rewrite lookup_empty in Hh.
    - unfold fireTimer. destruct (timers s !! h) as [t|] eqn:Hh; [|done].
      case_decide; [|done]. intros h' t'. cbn [timers profiles with_profiles with_timers].
      intros Hh'. apply lookup_delete_Some in Hh' as [Hne Hh'].
      destruct (Hnl h' t' Hh') as (e' & He' & Heq).
      exists e'. split; [|done]. rewrite OrderedMap.get_delete_ne; [done|].
      intros Ht. destruct (Hnl h t Hh) as (e & He & Heq2).
      rewrite Ht, He' in He. congruence. }
  assert (forall s, gentle_history ops s -> no_leaked_timers s ->
            no_leaked_timers (run_ops ops s)) as Hrun.
  { clear Hg. subst st. induction ops as [|[now op] rest IH]; intros s Hh Hnl; [done|].
    destruct Hh as [Hop Hrest]. cbn [run_ops]. apply IH; [done|]. by apply Hstep. }
  assert (no_leaked_timers st) as Hnl.
  { apply Hrun; [done|]. intros h t Hh. simpl in Hh. by rewrite lookup_empty in Hh. }
  split; [done|]. split; [by apply cleanup_without_leaks|].
  by destruct (cleanup_empty st) as (-> & -> & _).
Qed.

Lemma gentle_history_leaves_no_timer_witness :
  timers (cleanup (run_ops gentle_ops ttl_1000)) = ∅.
Proof.
  destruct (gentle_history_leaves_no_timer
              {| opt_maxProfiles := Some 3; opt_profileTTL := Some 1000 |} gentle_ops)
    as (_ & Hempty & _).
  - repeat (split; [first [exact I | reflexivity | vm_compute; intuition discriminate
                          | intros e He; vm_compute in He; injection He as <-;
                            vm_compute; discriminate] |]).
    exact I.
  - exact Hempty.
Defined.

(** * Identifiers, links and routes *)

Lemma hex_digit_code (n : nat) :
  (n < 16)%nat ->
  nat_of_ascii (hex_digit n) = if (n <? 10)%nat then (48 + n)%nat else (87 + n)%nat.
Proof.
  intros Hn. unfold hex_digit. apply nat_ascii_embedding.
  destruct (n <? 10)%nat; lia.
Qed.

Lemma hex_digit_lower_hex (n : nat) : (n < 16)%nat -> is_lower_hex (hex_digit n) = true.
Proof.
  intros Hn. unfold is_lower_hex, is_digit. rewrite hex_digit_code by done.
  destruct (n <? 10)%nat eqn:Hlt.
  - apply Nat.ltb_lt in Hlt. apply orb_true_iff. left. apply andb_true_iff.
    split; apply Nat.leb_le; lia.
  - apply Nat.ltb_ge in Hlt. apply orb_true_iff. right. apply andb_true_iff.
    split; apply Nat.leb_le; lia.
Qed.

Lemma hex_digit_inj (n m : nat) :
  (n < 16)%nat -> (m < 16)%nat -> hex_digit n = hex_digit m -> n = m.
Proof.
  intros Hn Hm Heq. apply (f_equal nat_of_ascii) in Heq.
  rewrite !hex_digit_code in Heq by done.
  destruct (n <? 10)%nat eqn:Hn10, (m <? 10)%nat eqn:Hm10;
    try apply Nat.ltb_lt in Hn10; try apply Nat.ltb_ge in Hn10;
    try apply Nat.ltb_lt in Hm10; try apply Nat.ltb_ge in Hm10; lia.
Qed.

Lemma byte_nibbles (b : ascii) :
  (nat_of_ascii b / 16 < 16)%nat /\ (nat_of_ascii b mod 16 < 16)%nat.
Proof.
  pose proof (nat_ascii_bounded b). split.
  - apply Nat.Div0.div_lt_upper_bound. lia.
  - apply Nat.mod_upper_bound. lia.
Qed.

Lemma toHex_cons (b : ascii) (r : list ascii) :
  toHex (b :: r) =
  String (hex_digit (nat_of_ascii b / 16)) (String (hex_digit (nat_of_ascii b mod 16)) (toHex r)).
Proof. reflexivity. Qed.

Lemma toHex_lower_hex (bytes : list ascii) : all_chars is_lower_hex (toHex bytes) = true.
Proof.
  induction bytes as [|b r IH]; [done|]. rewrite toHex_cons. cbn [all_chars].
  destruct (byte_nibbles b) as [Hhi Hlo].
  by rewrite !hex_digit_lower_hex, IH.
Qed.

Lemma toHex_length (bytes : list ascii) :
  String.length (toHex bytes) = (2 * length bytes)%nat.
Proof.
  induction bytes as [|b r IH]; [done|]. rewrite toHex_cons.
  cbn [String.length length]. rewrite IH. lia.
Qed.

Lemma byte_of_nibbles (x y : ascii) :
  hex_digit (nat_of_ascii x / 16) = hex_digit (nat_of_ascii y / 16) ->
  hex_digit (nat_of_ascii x mod 16) = hex_digit (nat_of_ascii y mod 16) ->
  x = y.
Proof.
  intros Hhi Hlo.
  destruct (byte_nibbles x) as [? ?], (byte_nibbles y) as [? ?].
  apply hex_digit_inj in Hhi; [|done..]. apply hex_digit_inj in Hlo; [|done..].
  rewrite <- (ascii_nat_embedding x), <- (ascii_nat_embedding y). f_equal.
  rewrite (Nat.div_mod_eq (nat_of_ascii x) 16), (Nat.div_mod_eq (nat_of_ascii y) 16).
  by rewrite Hhi, Hlo.
Qed.

Lemma toHex_inj (a b : list ascii) : toHex a = toHex b -> a = b.
Proof.
  revert b. induction a as [|x a IH]; intros [|y b]; try done.
  rewrite !toHex_cons. intros [= Hhi Hlo Hrest].
  f_equal; [by apply byte_of_nibbles | by apply IH].
Qed.

Lemma prefix_app (a s : string) : String.prefix a (a ++ s)%string = true.
Proof.
  induction a as [|c a IH]; [by destruct s|].
  change (String.prefix (String c a) (String c (a ++ s)%string) = true).
  change (String.prefix (String c a) (String c (a ++ s)%string))
    with (if ascii_dec c c then String.prefix a (a ++ s)%string else false).
  by destruct (ascii_dec c c).
Qed.

Lemma slice_app (a s : string) : slice (String.length a) (a ++ s)%string = s.
Proof.
  induction a as [|c a IH]; [by destruct s|].
  change (slice (String.length a) (a ++ s)%string = s). exact IH.
Qed.

Lemma resultMatch_complete (hex : string) :
  hex <> EmptyString -> all_chars is_lower_hex hex = true ->
  resultMatch ("/result/" ++ hex)%string = Some hex.
Proof.
  intros Hne Hall. unfold resultMatch. rewrite prefix_app.
  change 8%nat with (String.length "/result/"). rewrite slice_app.
  apply String.eqb_neq in Hne. by rewrite Hne, Hall.
Qed.

Lemma generateId_shape_aux (randomBytes : list ascii) :
  length randomBytes = 16%nat ->
  generateId randomBytes <> EmptyString /\
  all_chars is_lower_hex (generateId randomBytes) = true.
Proof.
  intros Hlen. unfold generateId. split; [|apply toHex_lower_hex].
  intros Hempty. apply (f_equal String.length) in Hempty.
  rewrite toHex_length, Hlen in Hempty. discriminate.
Qed.

(** [generateId]: sixteen random bytes give an identifier of 32 characters,
    all of them lowercase hexadecimal digits, which the result route's
    pattern accepts whole; and different bytes give different identifiers. *)
Theorem generateId_well_formed (randomBytes other : list ascii) :
  (length randomBytes = 16%nat ->
     String.length (generateId randomBytes) = 32%nat /\
     all_chars is_lower_hex (generateId randomBytes) = true /\
     resultMatch ("/result/" ++ generateId randomBytes)%string
     = Some (generateId randomBytes)) /\
  (randomBytes <> other -> generateId randomBytes <> generateId other).
Proof.
  unfold generateId. split.
  - intros Hlen. split; [rewrite toHex_length, Hlen; done|].
    split; [apply toHex_lower_hex|].
    apply resultMatch_complete; [|apply toHex_lower_hex].
    intros Hempty. apply (f_equal String.length) in Hempty.
    rewrite toHex_length, Hlen in Hempty. discriminate.
  - intros Hne Heq. by apply Hne, toHex_inj.
Qed.

Lemma generateId_well_formed_witness :
  generateId sixteen_bytes = "000102030405060708090aabcdeffeff" /\
  resultMatch ("/result/" ++ generateId sixteen_bytes)%string = Some (generateId sixteen_bytes) /\
  generateId sixteen_bytes <> generateId sixteen_zero_bytes.
Proof.
  destruct (generateId_well_formed sixteen_bytes sixteen_zero_bytes) as [Hshape Hdiff].
  split; [reflexivity|]. split.
  - apply Hshape. reflexivity.
  - apply Hdiff. discriminate.
Defined.

Lemma route_start (ext : Imports) (req : Request) (newId : string) (now : Z) (mw : Middleware) :
  start_route (basePath (config mw)) (pathname req) ->
  flamegraphMiddleware ext req newId now mw =
  (Respond (fst (handleStartProfiling ext (query_duration req) newId now mw)),
   snd (handleStartProfiling ext (query_duration req) newId now mw)).
Proof.
  intros Hroute. unfold flamegraphMiddleware.
  set (base := basePath (config mw)) in *.
  assert (String.prefix base (pathname req) = true /\
          (slice (String.length base) (pathname req) = EmptyString \/
           slice (String.length base) (pathname req) = "/")) as [Hpre Hsl].
  { destruct Hroute as [-> | ->].
    - rewrite <- (append_empty_r base) at 2 4. rewrite prefix_app, slice_app. eauto.
    - rewrite prefix_app, slice_app. eauto. }
  rewrite Hpre. cbn [negb].
  destruct Hsl as [-> | ->]; cbn [String.eqb orb];
    by destruct (handleStartProfiling ext (query_duration req) newId now mw).
Qed.

Lemma route_result (ext : Imports) (req : Request) (newId profileId : string) (now : Z)
    (mw : Middleware) :
  profileId <> EmptyString -> all_chars is_lower_hex profileId = true ->
  pathname req = resultUrl (basePath (config mw)) profileId ->
  flamegraphMiddleware ext req newId now mw =
  (Respond (fst (handleResultPage ext profileId now mw)),
   snd (handleResultPage ext profileId now mw)).
Proof.
  intros Hne Hall Hpath. unfold flamegraphMiddleware, resultUrl in *.
  rewrite Hpath, prefix_app, slice_app. cbn [negb].
  change (String.eqb ("/result/" ++ profileId)%string EmptyString) with false.
  change (String.eqb ("/result/" ++ profileId)%string "/") with false. cbn [orb].
  rewrite resultMatch_complete by done.
  by destruct (handleResultPage ext profileId now mw).
Qed.

(** Routing: a request for the base path, or the base path followed by a
    slash, is a start request whatever else the URL carries; a request for
    the base path, [/result/] and a non-empty run of lowercase hexadecimal
    digits is a poll of that identifier.  In both cases [next] is not
    called. *)
Theorem routes_dispatch (ext : Imports) (req : Request) (newId : string) (now : Z)
    (mw : Middleware) :
  let base := basePath (config mw) in
  (start_route base (pathname req) ->
     flamegraphMiddleware ext req newId now mw =
     (Respond (fst (handleStartProfiling ext (query_duration req) newId now mw)),
      snd (handleStartProfiling ext (query_duration req) newId now mw))) /\
  (forall profileId,
     profileId <> EmptyString -> all_chars is_lower_hex profileId = true ->
     pathname req = resultUrl base profileId ->
     flamegraphMiddleware ext req newId now mw =
     (Respond (fst (handleResultPage ext profileId now mw)),
      snd (handleResultPage ext profileId now mw))).
Proof.
  intros base. split; [apply route_start|]. intros profileId. apply route_result.
Qed.

Lemma routes_dispatch_witness :
  let mw := createFlamegraphMiddleware test_options in
  fst (flamegraphMiddleware example_imports (get_ "/flamegraph/" (Some "100")) "0a" 0 mw)
  = Respond {| statusCode := 200; body := ProgressPage "0a" (inject_Z 100) "/flamegraph" |} /\
  fst (flamegraphMiddleware example_imports (get_ "/flamegraph/result/0f" None) "0a" 0 mw)
  = Respond (sendError msg_not_found_or_expired 404).
Proof.
  intros mw. split.
  - destruct (routes_dispatch example_imports (get_ "/flamegraph/" (Some "100")) "0a" 0 mw)
      as [Hstart _].
    rewrite Hstart; [reflexivity|]. right. reflexivity.
  - destruct (routes_dispatch example_imports (get_ "/flamegraph/result/0f" None) "0a" 0 mw)
      as [_ Hresult].
    rewrite (Hresult "0f"); [reflexivity | discriminate | reflexivity | reflexivity].
Defined.

(** * Sessions from start to poll *)

Lemma poll_in_progress (ext : Imports) (profileId : string) (m : Metadata) (now : Z)
    (mw : Middleware) :
  inProgress (storage mw) !! profileId = Some m ->
  let left := (duration m - inject_Z (now - startTime m))%Q in
  ((0 < left)%Q ->
     handleResultPage ext profileId now mw =
     ({| statusCode := 200; body := ProgressPage profileId left (basePath (config mw)) |}, mw)) /\
  ((left <= 0)%Q -> handleResultPage ext profileId now mw = (sendError msg_processing 202, mw)).
Proof.
  intros Hm left. unfold handleResultPage, isInProgress, getInProgressMetadata.
  rewrite Hm. rewrite bool_decide_eq_true_2 by eauto. fold left. split.
  - intros Hpos. apply Qle_bool_false in Hpos. rewrite Hpos. cbn [negb]. by rewrite Hpos.
  - intros Hle. apply Qle_bool_iff in Hle. by rewrite Hle.
Qed.

(** The link of the progress page leads back to the session it was made
    for: after an accepted start whose identifier is what [generateId]
    makes of sixteen random bytes, a request for
    [basePath/result/identifier] at time [now'] is answered with the
    progress page showing the duration less the time elapsed since the
    start while that is positive, and with 202 afterwards; the poll changes
    nothing. *)
Theorem progress_link_polls_session (ext : Imports) (q qd : option string)
    (randomBytes : list ascii) (newId' : string) (now now' : Z) (mw : Middleware) (dur : Q) :
  let id := generateId randomBytes in
  let base := basePath (config mw) in
  let mw1 := snd (handleStartProfiling ext q id now mw) in
  let poll := {| pathname := resultUrl base id; query_duration := qd |} in
  let left := (dur - inject_Z (now' - now))%Q in
  length randomBytes = 16%nat ->
  accepted ext q id now mw dur ->
  ((0 < left)%Q ->
     flamegraphMiddleware ext poll newId' now' mw1 =
     (Respond {| statusCode := 200; body := ProgressPage id left base |}, mw1)) /\
  ((left <= 0)%Q ->
     flamegraphMiddleware ext poll newId' now' mw1 = (Respond (sendError msg_processing 202), mw1)).
Proof.
  intros id base mw1 poll left Hlen Hacc.
  destruct (generateId_shape_aux randomBytes Hlen) as [Hne Hall].
  assert (mw1 = mkMiddleware (config mw) (markInProgress id dur now (storage mw))
                  ((id, dur) :: collecting mw) (id :: issued mw)) as Hmw1.
  { unfold mw1. by rewrite Hacc. }
  assert (inProgress (storage mw1) !! id = Some {| duration := dur; startTime := now |})
    as Hm.
  { rewrite Hmw1. unfold markInProgress. cbn [storage inProgress with_inProgress].
    apply lookup_insert_eq. }
  assert (basePath (config mw1) = base) as Hbase by (by rewrite Hmw1).
  assert (flamegraphMiddleware ext poll newId' now' mw1 =
          (Respond (fst (handleResultPage ext id now' mw1)),
           snd (handleResultPage ext id now' mw1))) as Hroute.
  { apply route_result; [done | done |]. by rewrite Hbase. }
  destruct (poll_in_progress ext id _ now' mw1 Hm) as [Hpos Hle].
  cbn [duration startTime] in Hpos, Hle. fold left in Hpos, Hle. rewrite Hbase in Hpos.
  split; intros H; rewrite Hroute.
  - by rewrite (Hpos H).
  - by rewrite (Hle H).
Qed.

Lemma progress_link_polls_session_witness :
  let id := generateId sixteen_bytes in
  let mw := createFlamegraphMiddleware no_options in
  let mw1 := snd (handleStartProfiling example_imports (Some "2s") id 0 mw) in
  flamegraphMiddleware example_imports (get_ (resultUrl "/flamegraph" id) None) "0b" 500 mw1
  = (Respond {| statusCode := 200; body := ProgressPage id (1500 # 1) "/flamegraph" |}, mw1) /\
  flamegraphMiddleware example_imports (get_ (resultUrl "/flamegraph" id) None) "0b" 2000 mw1
  = (Respond (sendError msg_processing 202), mw1).
Proof.
  intros id mw mw1. split.
  - apply (progress_link_polls_session example_imports (Some "2s") None sixteen_bytes "0b"
             0 500 mw (inject_Z 2000)); reflexivity.
  - apply (progress_link_polls_session example_imports (Some "2s") None sixteen_bytes "0b"
             0 2000 mw (inject_Z 2000)); [reflexivity | reflexivity | vm_compute; discriminate].
Defined.

(** A poll right after a collection was stored: until the record's
    expiration the answer is the page rendered from the two buffers that
    were stored, or 500 with the generic message when rendering fails, and
    the poll changes nothing; after the expiration the answer is 404 and
    the record is removed. *)
Theorem poll_after_collection (ext : Imports) (profileId : string)
    (cpuBuffer heapBuffer : Buffer) (now t : Z) (mw : Middleware) :
  let mw1 := collectProfilesInBackground profileId (Encoded cpuBuffer heapBuffer) now mw in
  let rendered := generateResultsPage ext cpuBuffer heapBuffer
                    (primaryColor (config mw)) (secondaryColor (config mw)) in
  (t <= now + profileTTL (storage mw) ->
     forall html, rendered = Some html ->
     handleResultPage ext profileId t mw1
     = ({| statusCode := 200; body := ResultsPage html |}, mw1)) /\
  (t <= now + profileTTL (storage mw) ->
     rendered = None ->
     handleResultPage ext profileId t mw1 = (sendError msg_results_failed 500, mw1)) /\
  (now + profileTTL (storage mw) < t ->
     fst (handleResultPage ext profileId t mw1) = sendError msg_not_found_or_expired 404 /\
     OrderedMap.get profileId (profiles (storage (snd (handleResultPage ext profileId t mw1))))
     = None).
Proof.
  intros mw1 rendered.
  assert (isInProgress profileId (storage mw1) = false) as Hip
    by apply storeProfile_not_in_progress.
  assert (OrderedMap.get profileId (profiles (storage mw1)) =
          Some {| data := {| cpu := cpuBuffer; heap := heapBuffer |};
                  expiresAt := now + profileTTL (storage mw);
                  timeout := nextTimeout (storage mw) |}) as Hget
    by apply storeProfile_get.
  unfold handleResultPage. rewrite Hip. unfold getProfile. rewrite Hget.
  cbn [expiresAt data]. change (config mw1) with (config mw). unfold rendered.
  split; [|split].
  - intros Hlive html Hr. rewrite decide_False by lia. cbn [cpu heap]. by rewrite Hr.
  - intros Hlive Hr. rewrite decide_False by lia. cbn [cpu heap]. by rewrite Hr.
  - intros Hdead. rewrite decide_True by lia. split; [done|].
    cbn [snd storage with_storage profiles with_profiles]. apply OrderedMap.get_delete_eq.
Qed.

Lemma poll_after_collection_witness :
  handleResultPage example_imports "0a" 2200 completed_2100
  = ({| statusCode := 200; body := ResultsPage "cpuheap" |}, completed_2100) /\
  fst (handleResultPage never_renders "0a" 2200 completed_2100)
  = sendError "Failed to generate results page" 500 /\
  fst (handleResultPage example_imports "0a" 302101 completed_2100)
  = sendError msg_not_found_or_expired 404.
Proof.
  destruct (poll_after_collection example_imports "0a" "cpu" "heap" 2100 2200 started_2000)
    as (Hok & _).
  destruct (poll_after_collection never_renders "0a" "cpu" "heap" 2100 2200 started_2000)
    as (_ & Hfail & _).
  destruct (poll_after_collection example_imports "0a" "cpu" "heap" 2100 302101 started_2000)
    as (_ & _ & Hgone).
  split; [apply Hok; [vm_compute; discriminate | reflexivity]|].
  split.
  { assert (2200 <= 2100 + profileTTL (storage started_2000)) as Hlive
      by (vm_compute; discriminate).
    exact (f_equal fst (Hfail Hlive eq_refl)). }
  apply Hgone. reflexivity.
Defined.

Lemma failed_session_stuck (ext : Imports) (options : MiddlewareOptions)
    (evs1 evs2 : list (Z * Event)) (now : Z) (profileId : string) (result : CollectResult) :
  fresh_ids ext (evs1 ++ (now, EvSettle profileId result) :: evs2)
    (createFlamegraphMiddleware options) ->
  profileId ∈ pending (run ext evs1 (createFlamegraphMiddleware options)) ->
  result = CollectionThrows \/ result = EncodingThrows ->
  exists m,
    inProgress (storage (run ext evs1 (createFlamegraphMiddleware options))) !! profileId
    = Some m /\
    stuck profileId m
      (run ext evs2 (step ext now (EvSettle profileId result)
                       (run ext evs1 (createFlamegraphMiddleware options)))).
Proof.
  set (mw1 := run ext evs1 (createFlamegraphMiddleware options)).
  intros Hfresh Hpend Hres.
  apply fresh_ids_app in Hfresh as [Hf1 Hf2]. fold mw1 in Hf2.
  apply fresh_ids_cons in Hf2 as [_ Hf2].
  assert (Inv mw1) as [Hnd Hp Hip Hprof Hdis] by (apply Inv_run; [done | apply Inv_init]).
  destruct (Hp profileId Hpend) as [Hiss [m Hm]].
  exists m. split; [done|]. apply stuck_run; [done|].
  assert (step ext now (EvSettle profileId result) mw1 =
          mkMiddleware (config mw1) (storage mw1)
            (finish profileId (collecting mw1)) (issued mw1)) as ->.
  { cbn [step]. rewrite decide_True by done. by destruct Hres as [-> | ->]. }
  unfold stuck, pending. cbn [collecting storage issued].
  split; [done|]. split; [by apply finish_not_elem|]. split; [done|]. apply Hdis. eauto.
Qed.

(** What a client sees of a session whose collection failed (identifiers
    being fresh): whatever happens afterwards, a poll of it is answered
    with the progress page while the advertised duration has not elapsed
    since its start, and with 202 (processing) at every later time; it is
    never answered 404 and never with results. *)
Theorem failed_session_polls_processing (ext : Imports) (options : MiddlewareOptions)
    (evs1 evs2 : list (Z * Event)) (now t : Z) (profileId : string) (result : CollectResult) :
  let mw1 := run ext evs1 (createFlamegraphMiddleware options) in
  let mw3 := run ext evs2 (step ext now (EvSettle profileId result) mw1) in
  fresh_ids ext (evs1 ++ (now, EvSettle profileId result) :: evs2)
    (createFlamegraphMiddleware options) ->
  profileId ∈ pending mw1 ->
  result = CollectionThrows \/ result = EncodingThrows ->
  exists m,
    getInProgressMetadata profileId (storage mw1) = Some m /\
    let left := (duration m - inject_Z (t - startTime m))%Q in
    ((0 < left)%Q ->
       handleResultPage ext profileId t mw3 =
       ({| statusCode := 200;
           body := ProgressPage profileId left (basePath (config mw3)) |}, mw3)) /\
    ((left <= 0)%Q ->
       handleResultPage ext profileId t mw3 = (sendError msg_processing 202, mw3)).
Proof.
  intros mw1 mw3 Hfresh Hpend Hres.
  destruct (failed_session_stuck ext options evs1 evs2 now profileId result Hfresh Hpend Hres)
    as (m & Hm & (_ & _ & Hm3 & _)).
  exists m. split; [done|]. exact (poll_in_progress ext profileId m t mw3 Hm3).
Qed.

Lemma failed_session_polls_processing_witness :
  let mw3 := run example_imports after_failure
               (step example_imports 150 (EvSettle "0a" EncodingThrows)
                  (run example_imports start_then_fail (createFlamegraphMiddleware no_options))) in
  handleResultPage example_imports "0a" 60 mw3
  = ({| statusCode := 200; body := ProgressPage "0a" (40 # 1) "/flamegraph" |}, mw3) /\
  handleResultPage example_imports "0a" 999999 mw3 = (sendError msg_processing 202, mw3).
Proof.
  intros mw3.
  assert (fresh_ids example_imports (start_then_fail ++ (150, EvSettle "0a" EncodingThrows)
                                       :: after_failure)
            (createFlamegraphMiddleware no_options)) as Hfresh.
  { repeat (split; [first [exact I | left; reflexivity | right; apply not_elem_of_nil
                          | right; vm_compute; intros H; inversion H; subst;
                            match goal with X : _ ∈ _ |- _ => inversion X end] |]).
    exact I. }
  assert ("0a" ∈ pending (run example_imports start_then_fail
                            (createFlamegraphMiddleware no_options))) as Hpend
    by apply list_elem_of_here.
  split.
  - destruct (failed_session_polls_processing example_imports no_options start_then_fail
                after_failure 150 60 "0a" EncodingThrows Hfresh Hpend (or_intror eq_refl))
      as (m & Hm & Hpos & _).
    injection Hm as <-. apply Hpos. reflexivity.
  - destruct (failed_session_polls_processing example_imports no_options start_then_fail
                after_failure 150 999999 "0a" EncodingThrows Hfresh Hpend (or_intror eq_refl))
      as (m & Hm & _ & Hle).
    injection Hm as <-. apply Hle. vm_compute. discriminate.
Defined.

(** The statuses the middleware answers with are 200, 202, 400, 404 and
    500, and it answers 500 only when a completed record was found and
    rendering it failed. *)
Theorem responses_have_known_status (ext : Imports) (req : Request) (newId : string)
    (now : Z) (mw : Middleware) (r : Response) :
  fst (flamegraphMiddleware ext req newId now mw) = Respond r ->
  (statusCode r = 200 \/ statusCode r = 202 \/ statusCode r = 400 \/
   statusCode r = 404 \/ statusCode r = 500) /\
  (statusCode r = 500 ->
     exists profileId pd,
       fst (getProfile profileId now (storage mw)) = Some pd /\
       generateResultsPage ext (cpu pd) (heap pd)
         (primaryColor (config mw)) (secondaryColor (config mw)) = None).
Proof.
  unfold flamegraphMiddleware.
  destruct (negb (String.prefix (basePath (config mw)) (pathname req))); [done|].
  match goal with |- context [if ?b then _ else _] => destruct b end.
  - unfold handleStartProfiling.
    destruct (requestedDuration ext (config mw) (query_duration req)) as [[dur| |]|];
      try (intros [= <-]; split; [tauto | done]).
    destruct (Qle_bool dur 0); [intros [= <-]; split; [tauto | done]|].
    destruct (negb (Qle_bool dur (inject_Z (maxDuration (config mw)))));
      intros [= <-]; (split; [tauto | done]).
  - match goal with |- context [resultMatch ?x] => destruct (resultMatch x) as [pid|] end;
      [|intros [= <-]; split; [tauto | done]].
    unfold handleResultPage, isInProgress, getInProgressMetadata.
    destruct (inProgress (storage mw) !! pid) as [m|] eqn:Hm.
    + rewrite bool_decide_eq_true_2 by eauto.
      match goal with |- context [negb ?b] => destruct (negb b) end;
        intros [= <-]; (split; [tauto | done]).
    + rewrite bool_decide_eq_false_2 by (by intros [? ?]).
      destruct (getProfile pid now (storage mw)) as [[pd|] st'] eqn:Hg;
        [|intros [= <-]; split; [tauto | done]].
      destruct (generateResultsPage ext (cpu pd) (heap pd) (primaryColor (config mw))
                  (secondaryColor (config mw))) as [html|] eqn:Hr;
        intros [= <-]; (split; [tauto|]); [done|].
      intros _. exists pid, pd. by rewrite Hg.
Qed.

Lemma responses_have_known_status_witness :
  exists profileId pd,
    fst (getProfile profileId 2200 (storage completed_2100)) = Some pd /\
    generateResultsPage never_renders (cpu pd) (heap pd) "#ff4444" "#ffcc66" = None.
Proof.
  destruct (responses_have_known_status never_renders (get_ "/flamegraph/result/0a" None)
              "0b" 2200 completed_2100 (sendError msg_results_failed 500) eq_refl)
    as [_ Hwhy].
  exact (Hwhy eq_refl).
Defined.

Lemma handleResultPage_snd (ext : Imports) (profileId : string) (now : Z) (mw : Middleware) :
  snd (handleResultPage ext profileId now mw) =
  if isInProgress profileId (storage mw) then mw
  else with_storage mw (snd (getProfile profileId now (storage mw))).
Proof.
  unfold handleResultPage. destruct (isInProgress profileId (storage mw)).
  - destruct (getInProgressMetadata profileId (storage mw)) as [m|]; [|done].
    cbv zeta. match goal with |- context [negb ?b] => by destruct (negb b) end.
  - destruct (getProfile profileId now (storage mw)) as [[pd|] st']; [|done].
    by destruct (generateResultsPage ext (cpu pd) (heap pd) _ _).
Qed.

(** A poll changes nothing but, at most, the polled record: the
    configuration, the pending collections, the in-progress map and the
    timers stay as they are and so does every other record; a poll of a
    session in progress, or of a record that is not past its expiration,
    leaves the whole state as it was. *)
Theorem poll_is_a_read (ext : Imports) (profileId : string) (now : Z) (mw : Middleware) :
  let mw' := snd (handleResultPage ext profileId now mw) in
  config mw' = config mw /\ collecting mw' = collecting mw /\ issued mw' = issued mw /\
  inProgress (storage mw') = inProgress (storage mw) /\
  timers (storage mw') = timers (storage mw) /\
  (forall k, k <> profileId ->
     OrderedMap.get k (profiles (storage mw')) = OrderedMap.get k (profiles (storage mw))) /\
  (isInProgress profileId (storage mw) = true -> mw' = mw) /\
  (forall e, OrderedMap.get profileId (profiles (storage mw)) = Some e ->
     now <= expiresAt e -> mw' = mw).
Proof.
  intros mw'. unfold mw'. rewrite handleResultPage_snd.
  destruct (isInProgress profileId (storage mw)) eqn:Hip; [by repeat split|].
  destruct (getProfile_rest profileId now (storage mw)) as (_ & _ & Hi & Ht & _).
  cbn [config collecting issued storage with_storage].
  split; [done|]. split; [done|]. split; [done|]. split; [done|]. split; [done|].
  split; [|split; [done|]].
  - intros k Hk. destruct (getProfile_profiles profileId now (storage mw)) as [->| ->];
      [done|]. apply OrderedMap.get_delete_ne. congruence.
  - intros e He Hlive. unfold getProfile. rewrite He, decide_False by lia.
    cbn [snd]. by destruct mw.
Qed.

Lemma poll_is_a_read_witness :
  snd (handleResultPage example_imports "0a" 500 started_2000) = started_2000 /\
  snd (handleResultPage example_imports "0a" 2200 completed_2100) = completed_2100 /\
  OrderedMap.get "0a"
    (profiles (storage (snd (handleResultPage example_imports "ff" 2200 completed_2100))))
  = OrderedMap.get "0a" (profiles (storage completed_2100)).
Proof.
  destruct (poll_is_a_read example_imports "0a" 500 started_2000)
    as (_ & _ & _ & _ & _ & _ & Hrun & _).
  destruct (poll_is_a_read example_imports "0a" 2200 completed_2100)
    as (_ & _ & _ & _ & _ & _ & _ & Hlive).
  destruct (poll_is_a_read example_imports "ff" 2200 completed_2100)
    as (_ & _ & _ & _ & _ & Hother & _).
  split; [apply Hrun; reflexivity|].
  split.
  - apply (Hlive {| data := {| cpu := "cpu"; heap := "heap" |};
                    expiresAt := 2100 + 5 * 60 * 1000; timeout := 0 |});
      [reflexivity | vm_compute; discriminate].
  - apply Hother. discriminate.
Defined.

(** * Escaping *)

Lemma all_chars_app (p : ascii -> bool) (a b : string) :
  all_chars p (a ++ b)%string = all_chars p a && all_chars p b.
Proof.
  induction a as [|c a IH]; [done|].
  change (all_chars p (String c (a ++ b)%string) = all_chars p (String c a) && all_chars p b).
  cbn [all_chars]. rewrite IH. by destruct (p c).
Qed.

Lemma length_app_string (a b : string) :
  String.length (a ++ b)%string = (String.length a + String.length b)%nat.
Proof.
  induction a as [|c a IH]; [done|].
  change (S (String.length (a ++ b)%string) = S (String.length a + String.length b)).
  by rewrite IH.
Qed.

Lemma escape_char_safe (c : ascii) : is_special c = false -> escape_char c = String c EmptyString.
Proof.
  unfold is_special, escape_char. intros H.
  repeat (apply orb_false_iff in H as [H ?]).
  by repeat match goal with E : Ascii.eqb _ _ = false |- _ => rewrite E; clear E end.
Qed.

Lemma escape_char_special (c : ascii) :
  is_special c = true ->
  c = char_amp /\ escape_char c = "&amp;" \/
  c = char_lt /\ escape_char c = "&lt;" \/
  c = char_gt /\ escape_char c = "&gt;" \/
  c = char_dquote /\ escape_char c = "&quot;" \/
  c = char_squote /\ escape_char c = "&#039;".
Proof.
  unfold is_special, escape_char. intros H.
  destruct (Ascii.eqb c char_amp) eqn:E1; [apply Ascii.eqb_eq in E1; tauto|].
  destruct (Ascii.eqb c char_lt) eqn:E2; [apply Ascii.eqb_eq in E2; tauto|].
  destruct (Ascii.eqb c char_gt) eqn:E3; [apply Ascii.eqb_eq in E3; tauto|].
  destruct (Ascii.eqb c char_dquote) eqn:E4; [apply Ascii.eqb_eq in E4; tauto|].
  destruct (Ascii.eqb c char_squote) eqn:E5; [apply Ascii.eqb_eq in E5; tauto|].
  done.
Qed.

Lemma escape_char_no_markup (c : ascii) :
  all_chars (fun x => negb (is_markup x)) (escape_char c) = true /\
  (1 <= String.length (escape_char c))%nat.
Proof.
  destruct (is_special c) eqn:Hs.
  - destruct (escape_char_special c Hs) as [[_ ->]|[[_ ->]|[[_ ->]|[[_ ->]|[_ ->]]]]];
      split; (reflexivity || (cbn; lia)).
  - rewrite (escape_char_safe c Hs). cbn [all_chars String.length]. split; [|lia].
    unfold is_special in Hs. unfold is_markup.
    apply orb_false_iff in Hs as [Hs H5]. apply orb_false_iff in Hs as [Hs H4].
    apply orb_false_iff in Hs as [Hs H3]. apply orb_false_iff in Hs as [H1 H2].
    by rewrite H2, H3, H4, H5.
Qed.

(** [escapeHtml]: the escaped text holds no less-than, greater-than, double
    quote or single quote, whatever the text; a text with none of the five
    characters of the class comes back unchanged; the escaped text is never
    shorter than the text; and two different texts never escape to the
    same text. *)
Theorem escapeHtml_neutralises_markup (text other : string) :
  all_chars (fun c => negb (is_markup c)) (escapeHtml text) = true /\
  (all_chars (fun c => negb (is_special c)) text = true -> escapeHtml text = text) /\
  (String.length text <= String.length (escapeHtml text))%nat /\
  (escapeHtml text = escapeHtml other -> text = other).
Proof.
  split; [|split; [|split]].
  - induction text as [|c r IH]; [done|]. cbn [escapeHtml].
    rewrite all_chars_app, IH. by destruct (escape_char_no_markup c) as [-> _].
  - induction text as [|c r IH]; [done|]. cbn [escapeHtml all_chars].
    intros H. apply andb_true_iff in H as [Hc Hr]. apply negb_true_iff in Hc.
    rewrite (escape_char_safe c Hc), (IH Hr). reflexivity.
  - induction text as [|c r IH]; [done|]. cbn [escapeHtml].
    rewrite length_app_string. destruct (escape_char_no_markup c) as [_ Hlen].
    cbn [String.length]. lia.
  - revert other. induction text as [|c r IH]; intros [|c' r']; cbn [escapeHtml].
    + done.
    + intros H. apply (f_equal String.length) in H. rewrite length_app_string in H.
      destruct (escape_char_no_markup c') as [_ Hlen]. cbn [String.length] in H. lia.
    + intros H. apply (f_equal String.length) in H. rewrite length_app_string in H.
      destruct (escape_char_no_markup c) as [_ Hlen]. cbn [String.length] in H. lia.
    + intros H.
      assert (c = c' /\ escapeHtml r = escapeHtml r') as [-> Hr]; [|by rewrite (IH r' Hr)].
      destruct (is_special c) eqn:Hs, (is_special c') eqn:Hs'.
      * destruct (escape_char_special c Hs) as [[-> E]|[[-> E]|[[-> E]|[[-> E]|[-> E]]]]];
          destruct (escape_char_special c' Hs')
            as [[-> E']|[[-> E']|[[-> E']|[[-> E']|[-> E']]]]];
          rewrite ?E, ?E' in H; cbv beta iota zeta delta [String.append] in H;
          first [discriminate H | injection H; intros; split; congruence].
      * destruct (escape_char_special c Hs) as [[-> E]|[[-> E]|[[-> E]|[[-> E]|[-> E]]]]];
          rewrite E, (escape_char_safe c' Hs') in H;
          cbv beta iota zeta delta [String.append] in H;
          injection H as Hc _; subst c'; discriminate Hs'.
      * destruct (escape_char_special c' Hs') as [[-> E]|[[-> E]|[[-> E]|[[-> E]|[-> E]]]]];
          rewrite E, (escape_char_safe c Hs) in H;
          cbv beta iota zeta delta [String.append] in H;
          injection H as Hc _; subst c; discriminate Hs.
      * rewrite (escape_char_safe c Hs), (escape_char_safe c' Hs') in H.
        cbv beta iota zeta delta [String.append] in H.
        injection H; intros; split; congruence.
Qed.

Lemma escapeHtml_neutralises_markup_witness :
  escapeHtml "Not found" = "Not found" /\
  escapeHtml "<b>T&J's</b>" = "&lt;b&gt;T&amp;J&#039;s&lt;/b&gt;" /\
  "a<b" = "a<b".
Proof.
  destruct (escapeHtml_neutralises_markup "Not found" "Not found") as (_ & Hsafe & _).
  destruct (escapeHtml_neutralises_markup "a<b" "a<b") as (_ & _ & _ & Hinj).
  split; [apply Hsafe; reflexivity|]. split; [reflexivity|].
  apply Hinj. reflexivity.
Defined.

(** * The profiler's heap sampling *)













(** * The middleware over time *)





(** Each event acts on the store as at most one [ProfileStorage] call made
    at the time of the event. *)
Lemma step_as_store_op (ext : Imports) (now : Z) (ev : Event) (mw : Middleware) :
  storage (step ext now ev mw) = storage mw \/
  exists op, storage (step ext now ev mw) = apply_op now op (storage mw).
Proof.
  destruct ev as [req newId|profileId result|h]; cbn [step].
  - unfold flamegraphMiddleware.
    destruct (negb (String.prefix (basePath (config mw)) (pathname req))); [by left|].
    match goal with |- context [if ?b then _ else _] => destruct b end.
    + unfold handleStartProfiling.
      destruct (requestedDuration ext (config mw) (query_duration req)) as [[dur| |]|];
        try (by left).
      destruct (Qle_bool dur 0); [by left|].
      destruct (negb (Qle_bool dur (inject_Z (maxDuration (config mw))))); [by left|].
      right. by exists (OpMarkInProgress newId dur).
    + match goal with |- context [resultMatch ?x] => destruct (resultMatch x) as [pid|] end;
        [|by left].
      assert (forall x : Response * Middleware, snd (let '(r, mw') := x in (Respond r, mw')) = snd x)
        as -> by (by intros [? ?]).
      rewrite handleResultPage_snd.
      destruct (isInProgress pid (storage mw)); [by left|].
      right. by exists (OpGetProfile pid).
  - case_decide; [|by left]. destruct result; cbn [collectProfilesInBackground storage].
    + by left.
    + by left.
    + right. by exists (OpStoreProfile profileId {| cpu := cpuBuffer; heap := heapBuffer |}).
  - right. by exists (OpTimer h).
Qed.

Lemma run_as_store_ops (ext : Imports) (evs : list (Z * Event)) (mw : Middleware) :
  exists ops, storage (run ext evs mw) = run_ops ops (storage mw).
Proof.
  revert mw. induction evs as [|[now ev] rest IH]; intros mw; [by exists []|].
  cbn [run]. destruct (IH (step ext now ev mw)) as [ops Hops].
  destruct (step_as_store_op ext now ev mw) as [Hsame|[op Hop]].
  - exists ops. by rewrite Hops, Hsame.
  - exists ((now, op) :: ops). by rewrite Hops, Hop.
Qed.

(** The memory bound of the middleware: with a capacity that is not
    negative, whatever requests, collections and timers have happened, the
    number of completed records is at most the capacity in force, which is
    the configured [maxProfiles], or 10 when it is missing or 0. *)
Theorem middleware_keeps_capacity (ext : Imports) (options : MiddlewareOptions)
    (evs : list (Z * Event)) :
  let mw := run ext evs (createFlamegraphMiddleware options) in
  (forall n, o_maxProfiles options = Some n -> 0 <= n) ->
  maxProfiles (storage mw)
  = match o_maxProfiles options with
    | Some n => if decide (n = 0) then 10 else n
    | None => 10
    end /\
  0 < maxProfiles (storage mw) /\
  OrderedMap.size (profiles (storage mw)) <= maxProfiles (storage mw).
Proof.
  intros mw Hnonneg.
  destruct (run_as_store_ops ext evs (createFlamegraphMiddleware options)) as [ops Hops].
  fold mw in Hops.
  set (st0 := storage (createFlamegraphMiddleware options)) in *.
  assert (maxProfiles st0 = match o_maxProfiles options with
                            | Some n => if decide (n = 0) then 10 else n
                            | None => 10
                            end) as Hcap.
  { unfold st0. cbn. destruct (o_maxProfiles options) as [n|]; cbn; [|done].
    destruct (decide (n = 0)); done. }
  assert (0 < maxProfiles st0) as Hpos.
  { rewrite Hcap. destruct (o_maxProfiles options) as [n|] eqn:Hn; [|lia].
    specialize (Hnonneg n eq_refl). destruct (decide (n = 0)); lia. }
  assert (maxProfiles (storage mw) = maxProfiles st0) as Hsame.
  { rewrite Hops. by destruct (maxProfiles_run_ops ops st0) as [-> _]. }
  rewrite Hsame. split; [done|]. split; [done|].
  rewrite Hops. apply size_run_ops; [done|].
  assert (profiles st0 = []) as -> by done.
  unfold OrderedMap.size. cbn [length]. lia.
Qed.

Lemma middleware_keeps_capacity_witness :
  let mw := run example_imports (session_expires ++ later_traffic)
              (createFlamegraphMiddleware no_options) in
  maxProfiles (storage mw) = 10 /\ OrderedMap.size (profiles (storage mw)) <= 10.
Proof.
  destruct (middleware_keeps_capacity example_imports no_options
              (session_expires ++ later_traffic)) as (Hcap & _ & Hsize).
  - intros n Hn. discriminate Hn.
  - split; [exact Hcap | exact Hsize].
Defined.

Lemma gone_effect now ev mw mw' id :
  Effect now mw ev mw' ->
  (forall req newId, ev = EvRequest req newId ->
     issued mw' = issued mw \/ newId ∉ issued mw) ->
  gone id mw -> gone id mw'.
Proof.
  intros Heff Hfresh (Hiss & Hnp & Hm & Hnone).
  destruct Heff as [ev|req newId dur _ _|ev st' Hsame Hshr|k c h Hin|k result Hin Hfail];
    unfold gone, pending in *; cbn [collecting storage issued with_storage].
  - done.
  - assert (newId <> id) as Hne.
    { intros ->. destruct (Hfresh req id eq_refl) as [Heq|]; [|done].
      cbn [issued] in Heq. by apply cons_neq in Heq. }
    cbn [fmap list_fmap fst]. rewrite not_elem_of_cons.
    unfold markInProgress. cbn [inProgress profiles with_inProgress].
    rewrite lookup_insert_ne by done.
    split; [by apply list_elem_of_further|]. split; [split; [congruence | done]|]. done.
  - rewrite Hsame. split; [done|]. split; [done|]. split; [done | by apply Hshr].
  - assert (k <> id) as Hne by (intros ->; exact (Hnp Hin)).
    split; [done|]. split.
    { intros H. by apply finish_subseteq in H. }
    split; [|by apply storeProfile_other].
    rewrite storeProfile_unfold. cbn [inProgress]. by rewrite lookup_delete_ne.
  - split; [done|]. split; [|done]. intros H. by apply finish_subseteq in H.
Qed.

(** A session that is over stays over (identifiers being fresh): once an
    issued identifier is neither in progress nor completed and has no
    collection under way, whether its record expired, was evicted or was
    read too late, every later poll of it is answered 404, whatever else
    the middleware has done in between. *)
Theorem finished_session_stays_unknown (ext : Imports) (evs : list (Z * Event))
    (id : string) (t : Z) (mw : Middleware) :
  gone id mw ->
  fresh_ids ext evs mw ->
  gone id (run ext evs mw) /\
  fst (handleResultPage ext id t (run ext evs mw)) = sendError msg_not_found_or_expired 404.
Proof.
  intros Hgone Hfresh.
  assert (gone id (run ext evs mw)) as Hend.
  { revert mw Hgone Hfresh. induction evs as [|[now ev] rest IH]; intros mw Hg Hf; [done|].
    apply fresh_ids_cons in Hf as [Hstep Hr]. cbn [run]. apply IH; [|done].
    apply (gone_effect now ev mw); [apply step_effect | | done].
    intros req newId ->. exact Hstep. }
  split; [done|]. destruct Hend as (_ & _ & Hip & Hnone).
  unfold handleResultPage, isInProgress. rewrite Hip.
  rewrite bool_decide_eq_false_2 by (by intros [? ?]).
  unfold getProfile. by rewrite Hnone.
Qed.

Lemma finished_session_stays_unknown_witness :
  let mw := run example_imports session_expires (createFlamegraphMiddleware no_options) in
  fst (handleResultPage example_imports "0a" 320000 (run example_imports later_traffic mw))
  = sendError msg_not_found_or_expired 404.
Proof.
  intros mw.
  destruct (finished_session_stays_unknown example_imports later_traffic "0a" 320000 mw)
    as [_ H404].
  - split; [apply list_elem_of_here|]. split; [apply not_elem_of_nil|].
    split; reflexivity.
  - repeat (split; [first [exact I | left; reflexivity
                          | right; vm_compute; intros H; inversion H; subst;
                            match goal with X : _ ∈ _ |- _ => inversion X end] |]).
    exact I.
  - exact H404.
Defined.
